(** * hydrus: request dispatch and response translation of the client binding

    A shallow embedding of [src/python/hydrus/__init__.py].  The module is a
    thin client for an HTTP+JSON service; the only decision logic lives in
    [Client._call_endpoint] (credential header, status-to-exception mapping)
    and in the per-operation translation of JSON bodies into typed values.

    Python values are embedded as the tree type [pyval]; exceptions as the
    type [exn]; a method of [Client] as a state transformer over [State],
    which holds [self], the log of requests handed to the transport, and the
    warnings issued through [warnings.warn].  The [requests] session and the
    service behind it are a [Transport]: a function from the requests made
    so far and the next request to a reply. *)

From Stdlib Require Import ZArith List String Ascii Bool Lia.
From Stdlib Require Import Strings.Byte.
Import ListNotations.
Local Open Scope string_scope.
Local Open Scope Z_scope.
#[local] Set Warnings "-register-all".

(** ** Domain vocabulary: the [enum.IntEnum] classes *)

Module Permission.
Inductive t := ImportURLs | ImportFiles | AddTags | SearchFiles.
Definition value (p : t) : Z :=
  match p with ImportURLs => 0 | ImportFiles => 1 | AddTags => 2 | SearchFiles => 3 end.
Definition of_Z (z : Z) : option t :=
  match z with
  | 0 => Some ImportURLs | 1 => Some ImportFiles
  | 2 => Some AddTags | 3 => Some SearchFiles
  | _ => None
  end.
End Permission.

Module URLType.
Inductive t := PostURL | FileURL | GalleryURL | WatchableURL | UnknownURL.
Definition value (u : t) : Z :=
  match u with
  | PostURL => 0 | FileURL => 2 | GalleryURL => 3 | WatchableURL => 4 | UnknownURL => 5
  end.
Definition of_Z (z : Z) : option t :=
  match z with
  | 0 => Some PostURL | 2 => Some FileURL | 3 => Some GalleryURL
  | 4 => Some WatchableURL | 5 => Some UnknownURL
  | _ => None
  end.
End URLType.

Module ImportStatus.
Inductive t := Importable | Success | Exists | PreviouslyDeleted | Failed | Vetoed.
Definition value (s : t) : Z :=
  match s with
  | Importable => 0 | Success => 1 | Exists => 2
  | PreviouslyDeleted => 3 | Failed => 4 | Vetoed => 7
  end.
Definition of_Z (z : Z) : option t :=
  match z with
  | 0 => Some Importable | 1 => Some Success | 2 => Some Exists
  | 3 => Some PreviouslyDeleted | 4 => Some Failed | 7 => Some Vetoed
  | _ => None
  end.
End ImportStatus.

Module TagAction.
Inductive t := Add | Delete | Pend | RescindPending | Petition | RescindPetition.
Definition value (a : t) : Z :=
  match a with
  | Add => 0 | Delete => 1 | Pend => 2
  | RescindPending => 3 | Petition => 4 | RescindPetition => 5
  end.
End TagAction.

Module TagStatus.
Inductive t := Current | Pending | Deleted | Petitioned.
Definition value (s : t) : Z :=
  match s with Current => 0 | Pending => 1 | Deleted => 2 | Petitioned => 3 end.
Definition of_Z (z : Z) : option t :=
  match z with
  | 0 => Some Current | 1 => Some Pending
  | 2 => Some Deleted | 3 => Some Petitioned
  | _ => None
  end.
End TagStatus.

(** A member of any of the five classes. *)
Inductive enum_member :=
| EPermission (p : Permission.t)
| EURLType (u : URLType.t)
| EImportStatus (s : ImportStatus.t)
| ETagAction (a : TagAction.t)
| ETagStatus (s : TagStatus.t).

Definition enum_value (e : enum_member) : Z :=
  match e with
  | EPermission p => Permission.value p
  | EURLType u => URLType.value u
  | EImportStatus s => ImportStatus.value s
  | ETagAction a => TagAction.value a
  | ETagStatus s => TagStatus.value s
  end.

(** The enum classes that the client calls as constructors. *)
Inductive enum_class := ClsPermission | ClsURLType | ClsImportStatus | ClsTagStatus.

Definition enum_lookup (cls : enum_class) (z : Z) : option enum_member :=
  match cls with
  | ClsPermission => option_map EPermission (Permission.of_Z z)
  | ClsURLType => option_map EURLType (URLType.of_Z z)
  | ClsImportStatus => option_map EImportStatus (ImportStatus.of_Z z)
  | ClsTagStatus => option_map ETagStatus (TagStatus.of_Z z)
  end.

Definition member_class (e : enum_member) : option enum_class :=
  match e with
  | EPermission _ => Some ClsPermission
  | EURLType _ => Some ClsURLType
  | EImportStatus _ => Some ClsImportStatus
  | ETagStatus _ => Some ClsTagStatus
  | ETagAction _ => None
  end.

(** ** Python values

    Dictionary keys are strings, integers or [IntEnum] members; an [IntEnum]
    member hashes and compares as its integer value, so [KInt 0] and
    [KEnum (ETagStatus TagStatus.Current)] are the same key for lookup.  A dictionary is
    an association list in insertion order.  Numbers are integers; the
    translated fields of the service are integer codes. *)

Inductive key :=
| KStr (s : string)
| KInt (z : Z)
| KEnum (e : enum_member).

Inductive pyval :=
| PNone
| PBool (b : bool)
| PInt (z : Z)
| PStr (s : string)
| PBytes (b : list byte)
| PEnum (e : enum_member)
| PList (l : list pyval)
| PDict (d : list (key * pyval)).

Abbreviation dict := (list (key * pyval)).

(** Python equality of keys: strings by content, integers and enum members by
    integer value. *)
Definition key_eqb (a b : key) : bool :=
  match a, b with
  | KStr s, KStr t => String.eqb s t
  | KStr _, _ | _, KStr _ => false
  | KInt x, KInt y => Z.eqb x y
  | KInt x, KEnum e => Z.eqb x (enum_value e)
  | KEnum e, KInt y => Z.eqb (enum_value e) y
  | KEnum e, KEnum f => Z.eqb (enum_value e) (enum_value f)
  end.

Definition key_value (k : key) : pyval :=
  match k with KStr s => PStr s | KInt z => PInt z | KEnum e => PEnum e end.

(** [d[k]] as a lookup; [None] stands for [KeyError]. *)
Fixpoint dict_get (k : key) (d : dict) : option pyval :=
  match d with
  | [] => None
  | (k', v) :: r => if key_eqb k k' then Some v else dict_get k r
  end.

(** [d[k] = v]: an equal key keeps its place and its key object, a new key is
    appended. *)
Fixpoint dict_set (k : key) (v : pyval) (d : dict) : dict :=
  match d with
  | [] => [(k, v)]
  | (k', v') :: r => if key_eqb k k' then (k', v) :: r else (k', v') :: dict_set k v r
  end.

(** [del d[k]]; [None] stands for [KeyError]. *)
Fixpoint dict_del (k : key) (d : dict) : option dict :=
  match d with
  | [] => None
  | (k', v') :: r =>
      if key_eqb k k' then Some r
      else option_map (cons (k', v')) (dict_del k r)
  end.

Definition dict_keys (d : dict) : list key := map fst d.

(** [bool(v)]. *)
Definition truthy (v : pyval) : bool :=
  match v with
  | PNone => false
  | PBool b => b
  | PInt z => negb (Z.eqb z 0)
  | PStr s => negb (String.eqb s "")
  | PBytes b => match b with [] => false | _ => true end
  | PEnum e => negb (Z.eqb (enum_value e) 0)
  | PList l => match l with [] => false | _ => true end
  | PDict d => match d with [] => false | _ => true end
  end.

(** The integer a value compares equal to, if any ([True == 1]). *)
Definition int_value (v : pyval) : option Z :=
  match v with
  | PInt z => Some z
  | PBool b => Some (if b then 1 else 0)
  | PEnum e => Some (enum_value e)
  | _ => None
  end.

(** [n != v] for an integer [n]. *)
Definition int_ne (n : Z) (v : pyval) : bool :=
  match int_value v with
  | Some z => negb (Z.eqb n z)
  | None => true
  end.

(** [for x in v]: the elements a [for] loop visits; [None] stands for the
    [TypeError] of a value that is not iterable. *)
Definition py_iter (v : pyval) : option (list pyval) :=
  match v with
  | PList l => Some l
  | PDict d => Some (map key_value (dict_keys d))
  | PStr s => Some (map (fun c => PStr (String c EmptyString)) (list_ascii_of_string s))
  | PBytes b => Some (map (fun x => PInt (Z.of_N (Byte.to_N x))) b)
  | PNone | PBool _ | PInt _ | PEnum _ => None
  end.

(** ** [int(s)] on a string

    [int] in base 10 as CPython 3.11 reads a [str] (Unicode 14.0, default
    limit of 4300 digits).  A string stands for the text it encodes in
    UTF-8.  Above ASCII, a whitespace character is read as a space and a
    decimal digit of any script as its value, and any other character is
    refused.  Then whitespace of the C locale is dropped at both ends, one
    sign is allowed, and the digits may be separated by single
    underscores. *)

Local Open Scope N_scope.

Definition is_continuation (b : N) : bool := (128 <=? b) && (b <=? 191).

(** The code points of a text from its UTF-8 bytes; [None] when the bytes
    encode no text (a stray or missing continuation byte, an overlong form,
    a surrogate, a value above 0x10FFFF). *)
Fixpoint utf8_decode (bytes : list N) : option (list N) :=
  match bytes with
  | [] => Some []
  | b0 :: r =>
      if b0 <? 128 then option_map (cons b0) (utf8_decode r)
      else if (194 <=? b0) && (b0 <=? 223) then
        match r with
        | b1 :: r1 =>
            if is_continuation b1
            then option_map (cons ((b0 - 192) * 64 + (b1 - 128))) (utf8_decode r1)
            else None
        | _ => None
        end
      else if (224 <=? b0) && (b0 <=? 239) then
        match r with
        | b1 :: b2 :: r2 =>
            let c := (b0 - 224) * 4096 + (b1 - 128) * 64 + (b2 - 128) in
            if is_continuation b1 && is_continuation b2 && (2048 <=? c)
               && negb ((55296 <=? c) && (c <=? 57343))
            then option_map (cons c) (utf8_decode r2)
            else None
        | _ => None
        end
      else if (240 <=? b0) && (b0 <=? 244) then
        match r with
        | b1 :: b2 :: b3 :: r3 =>
            let c := (b0 - 240) * 262144 + (b1 - 128) * 4096 + (b2 - 128) * 64
                     + (b3 - 128) in
            if is_continuation b1 && is_continuation b2 && is_continuation b3
               && (65536 <=? c) && (c <=? 1114111)
            then option_map (cons c) (utf8_decode r3)
            else None
        | _ => None
        end
      else None
  end.

(** [Py_ISSPACE]: the whitespace of the C locale. *)
Definition is_space (c : N) : bool :=
  ((9 <=? c) && (c <=? 13)) || (c =? 32).

(** [Py_UNICODE_ISSPACE] above ASCII. *)
Definition is_unicode_space (c : N) : bool :=
  existsb (N.eqb c) [133; 160; 5760; 8232; 8233; 8239; 8287; 12288]
  || ((8192 <=? c) && (c <=? 8202)).

(** The code points of the digit zero of every script above ASCII; the nine
    code points after each are its digits one to nine. *)
Definition decimal_zeros : list N :=
  [
   1632; 1776; 1984; 2406; 2534; 2662; 2790; 2918; 3046; 3174; 3302; 3430;
   3558; 3664; 3792; 3872; 4160; 4240; 6112; 6160; 6470; 6608; 6784; 6800;
   6992; 7088; 7232; 7248; 42528; 43216; 43264; 43472; 43504; 43600; 44016;
   65296; 66720; 68912; 69734; 69872; 69942; 70096; 70384; 70736; 70864;
   71248; 71360; 71472; 71904; 72016; 72784; 73040; 73120; 92768; 92864;
   93008; 120782; 120792; 120802; 120812; 120822; 123200; 123632; 125264;
   130032
  ].

(** [Py_UNICODE_TODECIMAL] above ASCII. *)
Definition decimal_of (c : N) : option N :=
  option_map (fun zero => c - zero)
             (find (fun zero => (zero <=? c) && (c <=? zero + 9)) decimal_zeros).

(** One character of [_PyUnicode_TransformDecimalAndSpaceToASCII]; [None]
    for a character that is neither, which ends the conversion with an
    invalid literal. *)
Definition to_ascii (c : N) : option N :=
  if c <? 127 then Some c
  else if is_unicode_space c then Some 32
  else option_map (N.add 48) (decimal_of c).

Fixpoint transform (text : list N) : option (list N) :=
  match text with
  | [] => Some []
  | c :: r =>
      match to_ascii c, transform r with
      | Some a, Some r' => Some (a :: r')
      | _, _ => None
      end
  end.

Definition digit_of (c : N) : option Z :=
  if (48 <=? c) && (c <=? 57) then Some (Z.of_N (c - 48)) else None.

Fixpoint lstrip_space (s : list N) : list N :=
  match s with
  | c :: r => if is_space c then lstrip_space r else s
  | [] => []
  end.

Definition strip_space (s : list N) : list N :=
  rev (lstrip_space (rev (lstrip_space s))).

Local Close Scope N_scope.

(** [sys.int_info.default_max_str_digits]. *)
Definition MAX_STR_DIGITS : nat := 4300.

Definition digit_count (s : list N) : nat :=
  List.length (filter (fun c => match digit_of c with Some _ => true | None => false end) s).

Fixpoint parse_digits (acc : Z) (after_digit : bool) (s : list N) : option Z :=
  match s with
  | [] => if after_digit then Some acc else None
  | c :: r =>
      match digit_of c with
      | Some d => parse_digits (10 * acc + d) true r
      | None =>
          if (N.eqb c 95 && after_digit)%bool then parse_digits acc false r
          else None
      end
  end.

(** The digits after the sign: at most [MAX_STR_DIGITS] of them. *)
Definition parse_unsigned (s : list N) : option Z :=
  if Nat.leb (digit_count s) MAX_STR_DIGITS then parse_digits 0 false s else None.

Definition int_of_string (s : string) : option Z :=
  match utf8_decode (map N_of_ascii (list_ascii_of_string s)) with
  | None => None
  | Some text =>
      match transform text with
      | None => None
      | Some buffer =>
          match strip_space buffer with
          | c :: r =>
              if N.eqb c 45 then option_map Z.opp (parse_unsigned r)
              else if N.eqb c 43 then parse_unsigned r
              else parse_unsigned (c :: r)
          | [] => None
          end
      end
  end.

(** ** [str.rstrip('/')] *)

Fixpoint rstrip_slash (s : string) : string :=
  match s with
  | EmptyString => EmptyString
  | String c r =>
      match rstrip_slash r with
      | EmptyString => if Ascii.eqb c "/" then EmptyString else String c EmptyString
      | r' => String c r'
      end
  end.

(** ** [json.dumps]

    The default encoder accepts [None], booleans, integers (hence [IntEnum]
    members), strings, lists and dictionaries whose keys are strings or
    integers; [bytes] raises [TypeError]. *)

Fixpoint json_serializable (v : pyval) : bool :=
  match v with
  | PBytes _ => false
  | PList l => forallb json_serializable l
  | PDict d => forallb (fun kv => json_serializable (snd kv)) d
  | PNone | PBool _ | PInt _ | PStr _ | PEnum _ => true
  end.

(** ** Requests and responses of the transport ([requests.Session]) *)

(** A value of the [params] mapping: a Python value passed as it is, or the
    text [json.dumps(v)]. *)
Inductive param :=
| Verbatim (v : pyval)
| JsonText (v : pyval).

(** The keyword arguments [_call_endpoint] forwards to [Session.request]. *)
Record kwargs := mkKwargs {
  kw_params : option (list (string * param));
  kw_json : option pyval;
  kw_data : option (list byte);
  kw_headers : option (list (string * pyval))
}.

Definition no_kwargs : kwargs := mkKwargs None None None None.

Record Request := mkRequest {
  req_method : string;
  req_url : string;
  req_kwargs : kwargs
}.

(** [json_body] is what [response.json()] returns, [None] when the body is not
    JSON; [content] is [response.content]. *)
Record Response := mkResponse {
  status_code : Z;
  content : list byte;
  json_body : option pyval
}.

(** ** Exceptions *)

Inductive exn :=
| Exception (msg : string)
| ValueError (msg : string)
| NotAValid (v : pyval) (cls : enum_class)   (* ValueError: v is not a valid cls *)
| InvalidLiteral (s : string)                (* ValueError of int(s) *)
| JSONDecodeError
| KeyError (k : key)
| TypeError (what : string)
| AttributeError (attr : string)
| APIError (response : Response)
| MissingParameter (response : Response)
| InsufficientAccess (response : Response)
| ServerError (response : Response)
| RequestException (what : string).          (* raised inside the transport *)

Inductive exn_class :=
| CException | CValueError | CJSONDecodeError | CKeyError | CTypeError
| CAttributeError | CAPIError | CMissingParameter | CInsufficientAccess
| CServerError | CRequestException.

Definition class_of (e : exn) : exn_class :=
  match e with
  | Exception _ => CException
  | ValueError _ | NotAValid _ _ | InvalidLiteral _ => CValueError
  | JSONDecodeError => CJSONDecodeError
  | KeyError _ => CKeyError
  | TypeError _ => CTypeError
  | AttributeError _ => CAttributeError
  | APIError _ => CAPIError
  | MissingParameter _ => CMissingParameter
  | InsufficientAccess _ => CInsufficientAccess
  | ServerError _ => CServerError
  | RequestException _ => CRequestException
  end.

(** [isinstance(e, APIError)]: the class and its three subclasses. *)
Definition is_APIError (e : exn) : bool :=
  match class_of e with
  | CAPIError | CMissingParameter | CInsufficientAccess | CServerError => true
  | _ => false
  end.

(** [e.response], set by [APIError.__init__]. *)
Definition exn_response (e : exn) : option Response :=
  match e with
  | APIError r | MissingParameter r | InsufficientAccess r | ServerError r => Some r
  | _ => None
  end.

(** The outcome of a call: a value or a raised exception. *)
Inductive Result (A : Type) :=
| Ok (a : A)
| Raise (e : exn).
Arguments Ok {A} a.
Arguments Raise {A} e.

Definition rbind {A B} (r : Result A) (f : A -> Result B) : Result B :=
  match r with Ok a => f a | Raise e => Raise e end.

Fixpoint rmap {A B} (f : A -> Result B) (l : list A) : Result (list B) :=
  match l with
  | [] => Ok []
  | a :: r => rbind (f a) (fun b => rbind (rmap f r) (fun bs => Ok (b :: bs)))
  end.

Fixpoint rfold {A B} (f : B -> A -> Result B) (l : list A) (b : B) : Result B :=
  match l with
  | [] => Ok b
  | a :: r => rbind (f b a) (rfold f r)
  end.

Declare Scope result_scope.
Delimit Scope result_scope with result.
Notation "x <- m ; k" := (rbind m (fun x => k))
  (at level 61, m at next level, right associativity) : result_scope.

(** ** Operations of the language on values, with the exceptions they raise *)

Section ValueOps.
Local Open Scope result_scope.

(** [v[k]] for a string [k]. *)
Definition getitem (v : pyval) (k : string) : Result pyval :=
  match v with
  | PDict d =>
      match dict_get (KStr k) d with
      | Some x => Ok x
      | None => Raise (KeyError (KStr k))
      end
  | _ => Raise (TypeError "subscript")
  end.

(** [v[k] = x] for a string [k]. *)
Definition setitem (v : pyval) (k : string) (x : pyval) : Result pyval :=
  match v with
  | PDict d => Ok (PDict (dict_set (KStr k) x d))
  | _ => Raise (TypeError "item assignment")
  end.

(** [v.items()]. *)
Definition items (v : pyval) : Result dict :=
  match v with
  | PDict d => Ok d
  | _ => Raise (AttributeError "items")
  end.

Definition iter (v : pyval) : Result (list pyval) :=
  match py_iter v with
  | Some l => Ok l
  | None => Raise (TypeError "iteration")
  end.

(** [cls(v)] for an enum class: the member whose value equals [v]. *)
Definition enum_call (cls : enum_class) (v : pyval) : Result enum_member :=
  match int_value v with
  | Some z =>
      match enum_lookup cls z with
      | Some e => Ok e
      | None => Raise (NotAValid v cls)
      end
  | None => Raise (NotAValid v cls)
  end.

(** [int(k)] for a dictionary key. *)
Definition int_of_key (k : key) : Result Z :=
  match k with
  | KStr s =>
      match int_of_string s with
      | Some z => Ok z
      | None => Raise (InvalidLiteral s)
      end
  | KInt z => Ok z
  | KEnum e => Ok (enum_value e)
  end.

Definition json_dumps (v : pyval) : Result param :=
  if json_serializable v then Ok (JsonText v)
  else Raise (TypeError "not JSON serializable").

(** [response.json()]. *)
Definition response_json (response : Response) : Result pyval :=
  match json_body response with
  | Some v => Ok v
  | None => Raise JSONDecodeError
  end.
End ValueOps.

(** [requests.Response.raise_for_status] raises [HTTPError] for the client
    and server error ranges, 400 to 599, and returns for every other status. *)
Definition raises_HTTPError (response : Response) : bool :=
  (400 <=? status_code response) && (status_code response <? 600).

(** [headers.update({name: v})]. *)
Fixpoint headers_update (name : string) (v : pyval) (h : list (string * pyval))
  : list (string * pyval) :=
  match h with
  | [] => [(name, v)]
  | (n, x) :: r =>
      if String.eqb name n then (n, v) :: r else (n, x) :: headers_update name v r
  end.

Fixpoint headers_get (name : string) (h : list (string * pyval)) : option pyval :=
  match h with
  | [] => None
  | (n, x) :: r => if String.eqb name n then Some x else headers_get name r
  end.

(** ** The state a method runs in *)

(** The instance attributes [__init__] sets besides the session. *)
Record client := mkClient {
  _access_key : pyval;
  _url : string
}.

(** What [Session.request] does with a request: it returns the response of
    the service, whatever its status, or raises an exception of its own. *)
Inductive Reply :=
| Responded (response : Response)
| Failed (what : string).

(** The session together with the service behind it: the reply to a request
    may depend on the requests made before. *)
Definition Transport := list Request -> Request -> Reply.

(** A message given to [warnings.warn]: the format string and its arguments. *)
Record Warning := mkWarning {
  w_format : string;
  w_args : list pyval
}.

Record State := mkState {
  self : client;
  network : Transport;
  sent : list Request;       (* requests made so far, oldest first *)
  warned : list Warning      (* warnings issued so far, oldest first *)
}.

Definition M (A : Type) := State -> Result A * State.

Definition ret {A} (a : A) : M A := fun st => (Ok a, st).
Definition raise {A} (e : exn) : M A := fun st => (Raise e, st).
Definition lift {A} (r : Result A) : M A := fun st => (r, st).
Definition bind {A B} (m : M A) (f : A -> M B) : M B :=
  fun st =>
    match m st with
    | (Ok a, st') => f a st'
    | (Raise e, st') => (Raise e, st')
    end.

Definition get_self : M client := fun st => (Ok (self st), st).
Definition set_self (c : client) : M unit :=
  fun st => (Ok tt, mkState c (network st) (sent st) (warned st)).

(** [warnings.warn(message)] under the default filter. *)
Definition warn (w : Warning) : M unit :=
  fun st => (Ok tt, mkState (self st) (network st) (sent st) (warned st ++ [w])).

(** [self._session.request(method, url, **kwargs)]. *)
Definition session_request (method url : string) (kw : kwargs) : M Response :=
  fun st =>
    let req := mkRequest method url kw in
    (match network st (sent st) req with
     | Responded response => Ok response
     | Failed what => Raise (RequestException what)
     end,
     mkState (self st) (network st) (sent st ++ [req]) (warned st)).

Declare Scope method_scope.
Delimit Scope method_scope with method.
Notation "x <- m ;; k" := (bind m (fun x => k))
  (at level 61, m at next level, right associativity) : method_scope.
Notation "m ;; k" := (bind m (fun _ => k))
  (at level 61, right associativity) : method_scope.

(** The argument of [add_file]: a plain value (a path when it is a string),
    an [io.BytesIO] object, or a binary file object of another class, such as
    the [io.BufferedReader] that [open(path, 'rb')] returns. *)
Inductive file_arg :=
| Plain (v : pyval)
| BytesIO (buffer : list byte) (pos : nat) (closed : bool)
| BufferedReader (buffer : list byte) (pos : nat) (closed : bool).

(** ** class Client *)

Module Client.
Local Open Scope method_scope.

Definition VERSION : Z := 4.

Definition _API_VERSION_ENDPOINT := "/api_version".
Definition _REQUEST_NEW_PERMISSIONS_ENDPOINT := "/request_new_permissions".
Definition _VERIFY_ACCESS_KEY_ENDPOINT := "/verify_access_key".
Definition _ADD_FILE_ENDPOINT := "/add_files/add_file".
Definition _CLEAN_TAGS_ENDPOINT := "/add_tags/clean_tags".
Definition _GET_TAG_SERVICES_ENDPOINT := "/add_tags/get_tag_services".
Definition _ADD_TAGS_ENDPOINT := "/add_tags/add_tags".
Definition _GET_URL_FILES_ENDPOINT := "/add_urls/get_url_files".
Definition _GET_URL_INFO_ENDPOINT := "/add_urls/get_url_info".
Definition _ADD_URL_ENDPOINT := "/add_urls/add_url".
Definition _ASSOCIATE_URL_ENDPOINT := "/add_urls/associate_url".
Definition _SEARCH_FILES_ENDPOINT := "/get_files/search_files".
Definition _FILE_METADATA_ENDPOINT := "/get_files/file_metadata".
Definition _FILE_ENDPOINT := "/get_files/file".
Definition _THUMBNAIL_ENDPOINT := "/get_files/thumbnail".

Definition ACCESS_KEY_HEADER := "Hydrus-Client-API-Access-Key".

(** [kwargs.setdefault('headers', {}).update({ACCESS_KEY_HEADER: key})] *)
Definition with_access_key (access_key : pyval) (kw : kwargs) : kwargs :=
  let headers := match kw_headers kw with Some h => h | None => [] end in
  mkKwargs (kw_params kw) (kw_json kw) (kw_data kw)
           (Some (headers_update ACCESS_KEY_HEADER access_key headers)).

Definition _call_endpoint (method endpoint : string) (kw : kwargs) : M Response :=
  c <- get_self ;;
  let kw := if truthy (_access_key c) then with_access_key (_access_key c) kw else kw in
  response <- session_request method (_url c ++ endpoint) kw ;;
  if raises_HTTPError response then
    if status_code response =? 400 then raise (MissingParameter response)
    else if (status_code response =? 401) || (status_code response =? 403)
    then raise (InsufficientAccess response)
    else if status_code response =? 500 then raise (ServerError response)
    else raise (APIError response)
  else ret response.

Definition api_version : M pyval :=
  response <- _call_endpoint "GET" _API_VERSION_ENDPOINT no_kwargs ;;
  data <- lift (response_json response) ;;
  lift (getitem data "version").

Definition VERSION_WARNING :=
  "Version of API module (v{}) and API endpoint (v{}) differ, this might lead to incompatibilities.".

Definition __init__ (access_key : pyval) (url : string) : M unit :=
  set_self (mkClient access_key (rstrip_slash url)) ;;
  api_version <- api_version ;;
  if int_ne VERSION api_version
  then warn (mkWarning VERSION_WARNING [PInt VERSION; api_version])
  else ret tt.

Definition request_new_permissions (name permissions : pyval) : M pyval :=
  basic_permissions <- lift (json_dumps permissions) ;;
  response <- _call_endpoint "GET" _REQUEST_NEW_PERMISSIONS_ENDPOINT
    (mkKwargs (Some [("name", Verbatim name); ("basic_permissions", basic_permissions)])
              None None None) ;;
  data <- lift (response_json response) ;;
  lift (getitem data "access_key").

Definition verify_access_key : M pyval :=
  response <- _call_endpoint "GET" _VERIFY_ACCESS_KEY_ENDPOINT no_kwargs ;;
  lift (data <- response_json response ;
        basic_permissions <- getitem data "basic_permissions" ;
        values <- iter basic_permissions ;
        members <- rmap (fun value => e <- enum_call ClsPermission value ; Ok (PEnum e))
                        values ;
        setitem data "basic_permissions" (PList members))%result.

(** [path_or_file.read()]: the bytes from the current position on.  The
    position it leaves behind is not read again by the client. *)
Definition read (buffer : list byte) (pos : nat) (closed : bool) : Result (list byte) :=
  if closed then Raise (ValueError "I/O operation on closed file.")
  else Ok (skipn pos buffer).

Definition add_file (path_or_file : file_arg) : M pyval :=
  response <-
    match path_or_file with
    | Plain (PStr path) =>
        _call_endpoint "POST" _ADD_FILE_ENDPOINT
          (mkKwargs None (Some (PDict [(KStr "path", PStr path)])) None None)
    | BytesIO buffer pos closed =>
        bytes <- lift (read buffer pos closed) ;;
        _call_endpoint "POST" _ADD_FILE_ENDPOINT
          (mkKwargs None None (Some bytes)
                    (Some [("Content-Type", PStr "application/octet-stream")]))
    | _ => raise (ValueError "Value must be file object or path")
    end ;;
  lift (data <- response_json response ;
        status <- getitem data "status" ;
        e <- enum_call ClsImportStatus status ;
        setitem data "status" (PEnum e))%result.

Definition clean_tags (tags : pyval) : M pyval :=
  tags_json <- lift (json_dumps tags) ;;
  response <- _call_endpoint "GET" _CLEAN_TAGS_ENDPOINT
    (mkKwargs (Some [("tags", tags_json)]) None None None) ;;
  data <- lift (response_json response) ;;
  lift (getitem data "tags").

Definition get_tag_services : M pyval :=
  response <- _call_endpoint "GET" _GET_TAG_SERVICES_ENDPOINT no_kwargs ;;
  lift (response_json response).

(** [if v: json_[k] = v] on a dictionary under construction. *)
Definition set_if_truthy (k : string) (v : pyval) (d : dict) : dict :=
  if truthy v then dict_set (KStr k) v d else d.

Definition add_tags (hashes services_to_tags services_to_actions : pyval) : M pyval :=
  let json_ := [(KStr "hashes", hashes)] in
  let json_ := set_if_truthy "service_names_to_tags" services_to_tags json_ in
  let json_ := set_if_truthy "service_names_to_actions_to_tags" services_to_actions json_ in
  _call_endpoint "POST" _ADD_TAGS_ENDPOINT (mkKwargs None (Some (PDict json_)) None None) ;;
  ret PNone.

(** [data[k]] after the object stored there has been updated in place to
    [x]: the entry keeps its key and its position. *)
Definition updated (data : pyval) (k : string) (x : pyval) : Result pyval :=
  setitem data k x.

Definition import_status_of (file_status : pyval) : Result pyval :=
  (status <- getitem file_status "status" ;
   e <- enum_call ClsImportStatus status ;
   setitem file_status "status" (PEnum e))%result.

(** The loop of [get_url_files] and of [file_metadata] updates the elements
    of the iterated value in place: the elements of a list are the updated
    objects afterwards, while the elements another iterable yields are
    fresh. *)
Definition for_each_in_place (f : pyval -> Result pyval) (v : pyval) : Result pyval :=
  (elements <- iter v ;
   elements' <- rmap f elements ;
   Ok (match v with PList _ => PList elements' | _ => v end))%result.

Definition get_url_files (url : pyval) : M pyval :=
  response <- _call_endpoint "GET" _GET_URL_FILES_ENDPOINT
    (mkKwargs (Some [("url", Verbatim url)]) None None None) ;;
  lift (data <- response_json response ;
        url_file_statuses <- getitem data "url_file_statuses" ;
        url_file_statuses' <- for_each_in_place import_status_of url_file_statuses ;
        updated data "url_file_statuses" url_file_statuses')%result.

Definition get_url_info (url : pyval) : M pyval :=
  response <- _call_endpoint "GET" _GET_URL_INFO_ENDPOINT
    (mkKwargs (Some [("url", Verbatim url)]) None None None) ;;
  lift (data <- response_json response ;
        url_type <- getitem data "url_type" ;
        e <- enum_call ClsURLType url_type ;
        setitem data "url_type" (PEnum e))%result.

Definition add_url (url page_name service_to_tags : pyval) : M pyval :=
  let json_ := [(KStr "url", url)] in
  let json_ := set_if_truthy "destination_page_name" page_name json_ in
  let json_ := set_if_truthy "service_names_to_tags" service_to_tags json_ in
  response <- _call_endpoint "POST" _ADD_URL_ENDPOINT
    (mkKwargs None (Some (PDict json_)) None None) ;;
  lift (response_json response).

Definition associate_url (hashes add delete : pyval) : M pyval :=
  let json_ := [(KStr "hashes", hashes)] in
  let json_ := set_if_truthy "urls_to_add" add json_ in
  let json_ := set_if_truthy "urls_to_delete" delete json_ in
  _call_endpoint "POST" _ASSOCIATE_URL_ENDPOINT
    (mkKwargs None (Some (PDict json_)) None None) ;;
  ret PNone.

Definition search_files (tags inbox archive : pyval) : M pyval :=
  tags_json <- lift (json_dumps tags) ;;
  inbox_json <- lift (json_dumps inbox) ;;
  archive_json <- lift (json_dumps archive) ;;
  let params := [("tags", tags_json); ("system_inbox", inbox_json);
                 ("system_archive", archive_json)] in
  response <- _call_endpoint "GET" _SEARCH_FILES_ENDPOINT
    (mkKwargs (Some params) None None None) ;;
  data <- lift (response_json response) ;;
  lift (getitem data "file_ids").

(** One round of the innermost loop of [file_metadata], on the dictionary
    [services_to_statuses[service]], which is the object [status_to_tags]
    whose entries were listed before the loop started. *)
Definition rekey_status (status_to_tags : dict) (entry : key * pyval) : Result dict :=
  let (status, tags) := entry in
  (n <- int_of_key status ;
   new_status <- enum_call ClsTagStatus (PInt n) ;
   let status_to_tags := dict_set (KEnum new_status) tags status_to_tags in
   match dict_del status status_to_tags with
   | Some d => Ok d
   | None => Raise (KeyError status)
   end)%result.

Definition rekey_service (entry : key * pyval) : Result (key * pyval) :=
  let (service, status_to_tags) := entry in
  (entries <- items status_to_tags ;
   status_to_tags' <- rfold rekey_status entries entries ;
   Ok (service, PDict status_to_tags'))%result.

Definition rekey_datum (datum : pyval) : Result pyval :=
  (services_to_statuses <- getitem datum "service_names_to_statuses_to_tags" ;
   services <- items services_to_statuses ;
   services' <- rmap rekey_service services ;
   updated datum "service_names_to_statuses_to_tags" (PDict services'))%result.

Definition add_param (k : string) (v : param) (params : list (string * param))
  : list (string * param) := params ++ [(k, v)].

Definition file_metadata (hashes file_ids only_identifiers : pyval) : M pyval :=
  if negb (xorb (truthy hashes) (truthy file_ids))
  then raise (Exception "hashes (exclusive) or file_ids required")
  else
    let params := [] in
    params <- (if truthy hashes
               then v <- lift (json_dumps hashes) ;; ret (add_param "hashes" v params)
               else ret params) ;;
    params <- (if truthy file_ids
               then v <- lift (json_dumps file_ids) ;; ret (add_param "file_ids" v params)
               else ret params) ;;
    params <- (if truthy only_identifiers
               then v <- lift (json_dumps only_identifiers) ;;
                    ret (add_param "only_return_identifiers" v params)
               else ret params) ;;
    response <- _call_endpoint "GET" _FILE_METADATA_ENDPOINT
      (mkKwargs (Some params) None None None) ;;
    body <- lift (response_json response) ;;
    data <- lift (getitem body "metadata") ;;
    if truthy only_identifiers then ret data
    else lift (for_each_in_place rekey_datum data).

(** The [params] of [get_file] and [get_thumbnail]. *)
Definition identity_params (hash_ file_id : pyval) : list (string * param) :=
  if truthy hash_ then [("hash", Verbatim hash_)]
  else if truthy file_id then [("file_id", Verbatim file_id)]
  else [].

Definition get_file (hash_ file_id : pyval) : M pyval :=
  if negb (xorb (truthy hash_) (truthy file_id))
  then raise (Exception "hash (exclusive) or file_id required")
  else
    let params := identity_params hash_ file_id in
    response <- _call_endpoint "GET" _FILE_ENDPOINT
      (mkKwargs (Some params) None None None) ;;
    ret (PBytes (content response)).

Definition get_thumbnail (hash_ file_id : pyval) : M pyval :=
  if negb (xorb (truthy hash_) (truthy file_id))
  then raise (Exception "hash (exclusive) or file_id required")
  else
    let params := identity_params hash_ file_id in
    response <- _call_endpoint "GET" _THUMBNAIL_ENDPOINT
      (mkKwargs (Some params) None None None) ;;
    ret (PBytes (content response)).
End Client.

(** ** The operations a caller can invoke on a constructed client *)

Inductive operation :=
| Op_api_version
| Op_request_new_permissions (name permissions : pyval)
| Op_verify_access_key
| Op_add_file (path_or_file : file_arg)
| Op_clean_tags (tags : pyval)
| Op_get_tag_services
| Op_add_tags (hashes services_to_tags services_to_actions : pyval)
| Op_get_url_files (url : pyval)
| Op_get_url_info (url : pyval)
| Op_add_url (url page_name service_to_tags : pyval)
| Op_associate_url (hashes add delete : pyval)
| Op_search_files (tags inbox archive : pyval)
| Op_file_metadata (hashes file_ids only_identifiers : pyval)
| Op_get_file (hash_ file_id : pyval)
| Op_get_thumbnail (hash_ file_id : pyval).

Definition invoke (op : operation) : M pyval :=
  match op with
  | Op_api_version => Client.api_version
  | Op_request_new_permissions name permissions =>
      Client.request_new_permissions name permissions
  | Op_verify_access_key => Client.verify_access_key
  | Op_add_file path_or_file => Client.add_file path_or_file
  | Op_clean_tags tags => Client.clean_tags tags
  | Op_get_tag_services => Client.get_tag_services
  | Op_add_tags hashes services_to_tags services_to_actions =>
      Client.add_tags hashes services_to_tags services_to_actions
  | Op_get_url_files url => Client.get_url_files url
  | Op_get_url_info url => Client.get_url_info url
  | Op_add_url url page_name service_to_tags => Client.add_url url page_name service_to_tags
  | Op_associate_url hashes add delete => Client.associate_url hashes add delete
  | Op_search_files tags inbox archive => Client.search_files tags inbox archive
  | Op_file_metadata hashes file_ids only_identifiers =>
      Client.file_metadata hashes file_ids only_identifiers
  | Op_get_file hash_ file_id => Client.get_file hash_ file_id
  | Op_get_thumbnail hash_ file_id => Client.get_thumbnail hash_ file_id
  end.

(** A transport that answers every request with the same response. *)
Definition stub (response : Response) : Transport := fun _ _ => Responded response.

(** A state in which no client has been constructed and nothing was sent. *)
Definition fresh (t : Transport) : State :=
  mkState (mkClient PNone "") t [] [].

(** [Client(access_key, url)] followed by one operation on the new client. *)
Definition construct_then (access_key : pyval) (url : string) (op : operation) : M pyval :=
  (Client.__init__ access_key url ;; invoke op)%method.

(** * Statements *)

(** ** The shape of every operation

    Each method validates and encodes its arguments, makes at most one call
    to [_call_endpoint], and translates the response without further effect.
    [prepare] and [translate] name the two pure halves. *)

(** The check [if not bool(a) ^ bool(b): raise Exception(msg)]. *)
Definition identity_check (a b : pyval) (msg : string) : Result unit :=
  if negb (xorb (truthy a) (truthy b)) then Raise (Exception msg) else Ok tt.

(** [if v: params[k] = json.dumps(v)]. *)
Definition opt_param (k : string) (v : pyval) (params : list (string * param))
  : Result (list (string * param)) :=
  if truthy v then (j <- json_dumps v ; Ok (Client.add_param k j params))%result
  else Ok params.

(** The method, endpoint and keyword arguments an operation calls
    [_call_endpoint] with, or the exception it raises before the call. *)
Definition prepare (op : operation) : Result (string * string * kwargs) :=
  (match op with
   | Op_api_version => Ok ("GET", Client._API_VERSION_ENDPOINT, no_kwargs)
   | Op_request_new_permissions name permissions =>
       j <- json_dumps permissions ;
       Ok ("GET", Client._REQUEST_NEW_PERMISSIONS_ENDPOINT,
           mkKwargs (Some [("name", Verbatim name); ("basic_permissions", j)]) None None None)
   | Op_verify_access_key => Ok ("GET", Client._VERIFY_ACCESS_KEY_ENDPOINT, no_kwargs)
   | Op_add_file (Plain (PStr path)) =>
       Ok ("POST", Client._ADD_FILE_ENDPOINT,
           mkKwargs None (Some (PDict [(KStr "path", PStr path)])) None None)
   | Op_add_file (BytesIO buffer pos closed) =>
       bytes <- Client.read buffer pos closed ;
       Ok ("POST", Client._ADD_FILE_ENDPOINT,
           mkKwargs None None (Some bytes)
                    (Some [("Content-Type", PStr "application/octet-stream")]))
   | Op_add_file _ => Raise (ValueError "Value must be file object or path")
   | Op_clean_tags tags =>
       j <- json_dumps tags ;
       Ok ("GET", Client._CLEAN_TAGS_ENDPOINT, mkKwargs (Some [("tags", j)]) None None None)
   | Op_get_tag_services => Ok ("GET", Client._GET_TAG_SERVICES_ENDPOINT, no_kwargs)
   | Op_add_tags hashes services_to_tags services_to_actions =>
       Ok ("POST", Client._ADD_TAGS_ENDPOINT,
           mkKwargs None
             (Some (PDict
                (Client.set_if_truthy "service_names_to_actions_to_tags" services_to_actions
                   (Client.set_if_truthy "service_names_to_tags" services_to_tags
                      [(KStr "hashes", hashes)])))) None None)
   | Op_get_url_files url =>
       Ok ("GET", Client._GET_URL_FILES_ENDPOINT,
           mkKwargs (Some [("url", Verbatim url)]) None None None)
   | Op_get_url_info url =>
       Ok ("GET", Client._GET_URL_INFO_ENDPOINT,
           mkKwargs (Some [("url", Verbatim url)]) None None None)
   | Op_add_url url page_name service_to_tags =>
       Ok ("POST", Client._ADD_URL_ENDPOINT,
           mkKwargs None
             (Some (PDict
                (Client.set_if_truthy "service_names_to_tags" service_to_tags
                   (Client.set_if_truthy "destination_page_name" page_name
                      [(KStr "url", url)])))) None None)
   | Op_associate_url hashes add delete =>
       Ok ("POST", Client._ASSOCIATE_URL_ENDPOINT,
           mkKwargs None
             (Some (PDict
                (Client.set_if_truthy "urls_to_delete" delete
                   (Client.set_if_truthy "urls_to_add" add [(KStr "hashes", hashes)]))))
             None None)
   | Op_search_files tags inbox archive =>
       t <- json_dumps tags ;
       i <- json_dumps inbox ;
       a <- json_dumps archive ;
       Ok ("GET", Client._SEARCH_FILES_ENDPOINT,
           mkKwargs (Some [("tags", t); ("system_inbox", i); ("system_archive", a)])
                    None None None)
   | Op_file_metadata hashes file_ids only_identifiers =>
       _ <- identity_check hashes file_ids "hashes (exclusive) or file_ids required" ;
       params <- opt_param "hashes" hashes [] ;
       params <- opt_param "file_ids" file_ids params ;
       params <- opt_param "only_return_identifiers" only_identifiers params ;
       Ok ("GET", Client._FILE_METADATA_ENDPOINT, mkKwargs (Some params) None None None)
   | Op_get_file hash_ file_id =>
       _ <- identity_check hash_ file_id "hash (exclusive) or file_id required" ;
       Ok ("GET", Client._FILE_ENDPOINT,
           mkKwargs (Some (Client.identity_params hash_ file_id)) None None None)
   | Op_get_thumbnail hash_ file_id =>
       _ <- identity_check hash_ file_id "hash (exclusive) or file_id required" ;
       Ok ("GET", Client._THUMBNAIL_ENDPOINT,
           mkKwargs (Some (Client.identity_params hash_ file_id)) None None None)
   end)%result.

(** [data[field] = cls(data[field])]. *)
Definition translate_enum_field (field : string) (cls : enum_class) (data : pyval)
  : Result pyval :=
  (raw <- getitem data field ;
   e <- enum_call cls raw ;
   setitem data field (PEnum e))%result.

(** What an operation returns for the response [_call_endpoint] gave it. *)
Definition translate (op : operation) (response : Response) : Result pyval :=
  (match op with
   | Op_api_version => data <- response_json response ; getitem data "version"
   | Op_request_new_permissions _ _ =>
       data <- response_json response ; getitem data "access_key"
   | Op_verify_access_key =>
       data <- response_json response ;
       basic_permissions <- getitem data "basic_permissions" ;
       values <- iter basic_permissions ;
       members <- rmap (fun value => e <- enum_call ClsPermission value ; Ok (PEnum e))
                       values ;
       setitem data "basic_permissions" (PList members)
   | Op_add_file _ =>
       data <- response_json response ; translate_enum_field "status" ClsImportStatus data
   | Op_clean_tags _ => data <- response_json response ; getitem data "tags"
   | Op_get_tag_services => response_json response
   | Op_add_tags _ _ _ => Ok PNone
   | Op_get_url_files _ =>
       data <- response_json response ;
       url_file_statuses <- getitem data "url_file_statuses" ;
       url_file_statuses' <-
         Client.for_each_in_place Client.import_status_of url_file_statuses ;
       Client.updated data "url_file_statuses" url_file_statuses'
   | Op_get_url_info _ =>
       data <- response_json response ; translate_enum_field "url_type" ClsURLType data
   | Op_add_url _ _ _ => response_json response
   | Op_associate_url _ _ _ => Ok PNone
   | Op_search_files _ _ _ => data <- response_json response ; getitem data "file_ids"
   | Op_file_metadata _ _ only_identifiers =>
       body <- response_json response ;
       data <- getitem body "metadata" ;
       if truthy only_identifiers then Ok data
       else Client.for_each_in_place Client.rekey_datum data
   | Op_get_file _ _ => Ok (PBytes (content response))
   | Op_get_thumbnail _ _ => Ok (PBytes (content response))
   end)%result.

(** The request [_call_endpoint] hands to the session. *)
Definition outbound (c : client) (method endpoint : string) (kw : kwargs) : Request :=
  mkRequest method (_url c ++ endpoint)
    (if truthy (_access_key c) then Client.with_access_key (_access_key c) kw else kw).

(** The outcome [_call_endpoint] makes of a reply. *)
Definition dispatch (r : Reply) : Result Response :=
  match r with
  | Failed what => Raise (RequestException what)
  | Responded response =>
      if raises_HTTPError response then
        if status_code response =? 400 then Raise (MissingParameter response)
        else if (status_code response =? 401) || (status_code response =? 403)
        then Raise (InsufficientAccess response)
        else if status_code response =? 500 then Raise (ServerError response)
        else Raise (APIError response)
      else Ok response
  end.

(** The state once [req] has been handed to the session. *)
Definition after_request (st : State) (req : Request) : State :=
  mkState (self st) (network st) (sent st ++ [req]) (warned st).

(** The requests a computation hands to the transport when run from [st]. *)
Definition issued {A} (m : M A) (st : State) : list Request :=
  skipn (List.length (sent st)) (sent (snd (m st))).

(** The value of the access-key header of a set of keyword arguments. *)
Definition auth_header (kw : kwargs) : option pyval :=
  match kw_headers kw with
  | Some h => headers_get Client.ACCESS_KEY_HEADER h
  | None => None
  end.

(** [n] copies of the character ['/']. *)
Fixpoint slashes (n : nat) : string :=
  match n with
  | O => EmptyString
  | S k => String "/" (slashes k)
  end.

(** ** Vocabulary of the statements, and sample replies *)

(** A reply with a status no branch of [_call_endpoint] names. *)
Definition teapot : Response := mkResponse 418 [] None.

(** A reply outside both the 2xx range and the error ranges. *)
Definition not_modified : Response := mkResponse 304 [] None.

(** The request [search_files] builds once its arguments are encoded. *)
Definition search_request (c : client) (tags inbox archive : pyval) : Request :=
  outbound c "GET" Client._SEARCH_FILES_ENDPOINT
    (mkKwargs (Some [("tags", JsonText tags); ("system_inbox", JsonText inbox);
                     ("system_archive", JsonText archive)]) None None None).

(** The reply [{'file_ids': [1, 2, 3]}]. *)
Definition three_ids : Response :=
  mkResponse 200 [] (Some (PDict [(KStr "file_ids", PList [PInt 1; PInt 2; PInt 3])])).

(** The request of the version check. *)
Definition version_request (access_key : pyval) (url : string) : Request :=
  outbound (mkClient access_key (rstrip_slash url)) "GET" Client._API_VERSION_ENDPOINT
    no_kwargs.

(** The warning of a version mismatch. *)
Definition version_warning (version : pyval) : Warning :=
  mkWarning Client.VERSION_WARNING [PInt Client.VERSION; version].

(** The reply [{'version': version}]. *)
Definition reports (version : Z) : Response :=
  mkResponse 200 [] (Some (PDict [(KStr "version", PInt version)])).

(** A state whose client holds [access_key] and has sent nothing yet. *)
Definition keyed (access_key : pyval) (t : Transport) : State :=
  mkState (mkClient access_key "http://127.0.0.1:45869") t [] [].

(** The three operations that take a file identity in two forms. *)
Inductive identity_op :=
| Id_file_metadata (only_identifiers : pyval)
| Id_get_file
| Id_get_thumbnail.

(** [by_hash] is [hashes] or [hash_], [by_id] is [file_ids] or [file_id]. *)
Definition identity_call (o : identity_op) (by_hash by_id : pyval) : operation :=
  match o with
  | Id_file_metadata only_identifiers => Op_file_metadata by_hash by_id only_identifiers
  | Id_get_file => Op_get_file by_hash by_id
  | Id_get_thumbnail => Op_get_thumbnail by_hash by_id
  end.

(** An argument is supplied when the caller passes something other than
    the default [None]. *)
Definition supplied (v : pyval) : bool :=
  match v with PNone => false | _ => true end.

(** The error of the identity check: a bare [Exception]. *)
Definition is_usage_error {A} (r : Result A) : Prop :=
  exists msg, r = Raise (Exception msg).

(** What [file_metadata] encodes with [json.dumps] can be encoded. *)
Definition encodable (o : identity_op) (by_hash by_id : pyval) : bool :=
  match o with
  | Id_file_metadata only_identifiers =>
      json_serializable by_hash && json_serializable by_id
      && json_serializable only_identifiers
  | _ => true
  end.

(** [r] is not the error of the identity check. *)
Definition never_usage {A} (r : Result A) : Prop := ~ is_usage_error r.

(** A SHA256 digest in hexadecimal. *)
Definition some_hash : pyval :=
  PStr "ba7816bf8f01cfea414140de5dae2223b00361a396177a9cb410ff61f20015ad".

(** The request of [add_file] for a path. *)
Definition add_file_path_request (c : client) (path : string) : Request :=
  outbound c "POST" Client._ADD_FILE_ENDPOINT
    (mkKwargs None (Some (PDict [(KStr "path", PStr path)])) None None).

(** The request of [add_file] for the bytes read from a stream. *)
Definition add_file_bytes_request (c : client) (bytes : list byte) : Request :=
  outbound c "POST" Client._ADD_FILE_ENDPOINT
    (mkKwargs None None (Some bytes)
              (Some [("Content-Type", PStr "application/octet-stream")])).

(** The error of the type check of [add_file]. *)
Definition add_file_usage_error : exn := ValueError "Value must be file object or path".

(** The class of the field an operation translates. *)
Definition field_class (op : operation) : option enum_class :=
  match op with
  | Op_add_file _ | Op_get_url_files _ => Some ClsImportStatus
  | Op_get_url_info _ => Some ClsURLType
  | Op_verify_access_key => Some ClsPermission
  | _ => None
  end.

(** The value of an outcome that is not an exception. *)
Definition value_of {A} (r : Result A) : option A :=
  match r with Ok a => Some a | Raise _ => None end.

(** The enumeration fields of the body of an operation, in the order the
    operation visits them: [status] for [add_file], [url_type] for
    [get_url_info], the elements of [basic_permissions] for
    [verify_access_key], and the [status] of each element of
    [url_file_statuses] for [get_url_files]. *)
Definition enum_fields (op : operation) (data : pyval) : option (list pyval) :=
  match op with
  | Op_add_file _ => option_map (fun v => [v]) (value_of (getitem data "status"))
  | Op_get_url_info _ => option_map (fun v => [v]) (value_of (getitem data "url_type"))
  | Op_verify_access_key =>
      match getitem data "basic_permissions" with
      | Ok (PList l) => Some l
      | _ => None
      end
  | Op_get_url_files _ =>
      match getitem data "url_file_statuses" with
      | Ok (PList l) => value_of (rmap (fun file_status => getitem file_status "status") l)
      | _ => None
      end
  | _ => None
  end.

(** An integer inside, and outside, the closed set of a class. *)
Definition inside (cls : enum_class) (v : pyval) : Prop :=
  exists n e, v = PInt n /\ enum_lookup cls n = Some e.

Definition outside (cls : enum_class) (v : pyval) : Prop :=
  exists n, v = PInt n /\ enum_lookup cls n = None.

(** [v] has become the member [e] of class [cls] with the same value. *)
Definition typed_as (cls : enum_class) (v : pyval) (e : enum_member) : Prop :=
  v = PInt (enum_value e) /\ member_class e = Some cls.

(** The error of a value outside the closed set of an enum class. *)
Definition is_data_format_error (e : exn) : Prop :=
  exists v cls, e = NotAValid v cls.

(** The reply of [add_file] with the given status code. *)
Definition import_reply (status : Z) : Response :=
  mkResponse 200 [] (Some (PDict [(KStr "status", PInt status); (KStr "hash", some_hash)])).




(** The field of a file record that holds the tag services. *)
Definition STATUSES_FIELD := "service_names_to_statuses_to_tags".



(** A file record as the service sends it, with two tag services that report
    different statuses. *)
Definition raw_record : pyval :=
  PDict [(KStr "file_id", PInt 1);
         (KStr STATUSES_FIELD,
          PDict [(KStr "my tags", PDict [(KStr "0", PList [PStr "a"])]);
                 (KStr "public", PDict [(KStr "1", PList [PStr "b"]);
                                        (KStr "3", PList [])])])].

(** [raw_record] as [file_metadata] returns it. *)
Definition typed_raw_record : pyval :=
  PDict [(KStr "file_id", PInt 1);
         (KStr STATUSES_FIELD,
          PDict [(KStr "my tags",
                  PDict [(KEnum (ETagStatus TagStatus.Current), PList [PStr "a"])]);
                 (KStr "public",
                  PDict [(KEnum (ETagStatus TagStatus.Pending), PList [PStr "b"]);
                         (KEnum (ETagStatus TagStatus.Petitioned), PList [])])])].

(** The reply [{'metadata': [raw_record]}]. *)
Definition metadata_reply : Response :=
  mkResponse 200 [] (Some (PDict [(KStr "metadata", PList [raw_record])])).

(** ** Vocabulary of the further properties *)

(** The last character of a string is ['/']. *)
Fixpoint ends_with_slash (s : string) : bool :=
  match s with
  | EmptyString => false
  | String c EmptyString => Ascii.eqb c "/"
  | String _ r => ends_with_slash r
  end.

(** The keyword arguments carry a request body. *)
Definition has_body (kw : kwargs) : bool :=
  match kw_json kw, kw_data kw with
  | None, None => false
  | _, _ => true
  end.

(** A status [raise_for_status] lets through. *)
Definition passes (response : Response) : Prop :=
  status_code response < 400 \/ 600 <= status_code response.

(** A status key that [TagStatus(int(key))] accepts. *)
Definition names_status (k : key) : Prop :=
  exists n t, int_of_key k = Ok n /\ TagStatus.of_Z n = Some t.

(** A file record whose tag services all map keys that name statuses. *)
Definition record_known (datum : pyval) : Prop :=
  exists fields services,
    datum = PDict fields /\
    dict_get (KStr STATUSES_FIELD) fields = Some (PDict services) /\
    Forall (fun entry =>
              exists status_to_tags,
                snd entry = PDict status_to_tags /\
                Forall (fun kv => names_status (fst kv)) status_to_tags)
           services.

(** The names of the tag services of a file record, in order. *)
Definition service_names (datum : pyval) : option (list key) :=
  match getitem datum STATUSES_FIELD with
  | Ok (PDict services) => Some (dict_keys services)
  | _ => None
  end.

(** The fields of a dictionary, in order; [None] for another value. *)
Definition field_names (v : pyval) : option (list key) :=
  match v with
  | PDict d => Some (dict_keys d)
  | _ => None
  end.

(** The top-level field of the body that an operation rewrites. *)
Definition rewritten_field (op : operation) : option string :=
  match op with
  | Op_add_file _ => Some "status"
  | Op_get_url_info _ => Some "url_type"
  | Op_verify_access_key => Some "basic_permissions"
  | Op_get_url_files _ => Some "url_file_statuses"
  | _ => None
  end.

(** *** The command line entry point, [hydrus-call.py] *)

Definition _DEFAULT_API_URL := "http://127.0.0.1:45869/".

(** [main(apiCall)]: the value is the list of arguments given to [print].
    [hydrus.Client()] takes the defaults [access_key=None] and
    [url=_DEFAULT_API_URL]. *)
Definition main (apiCall : string) : M (list pyval) :=
  (Client.__init__ PNone _DEFAULT_API_URL ;;
   api_ver <- Client.api_version ;;
   if String.eqb apiCall "api_ver"
   then ret [PStr "api version:"; api_ver]
   else ret [PStr "no"])%method.

(** The one request [main] makes, twice. *)
Definition default_version_request : Request :=
  mkRequest "GET" "http://127.0.0.1:45869/api_version" no_kwargs.

(** A session that cannot reach the service. *)
Definition unreachable : Transport := fun _ _ => Failed "ConnectionError".

(** A 403 reply that nevertheless has a well-formed body. *)
Definition forbidden : Response :=
  mkResponse 403 [] (Some (PDict [(KStr "file_ids", PList [PInt 1])])).

(** A 2xx reply whose body is the start of a PNG file, not JSON. *)
Definition image_reply : Response := mkResponse 200 [x89; x50; x4e; x47] None.



(** A reply of identifier-only mode. *)
Definition identifiers_reply : Response :=
  mkResponse 200 []
    (Some (PDict [(KStr "metadata",
                   PList [PDict [(KStr "file_id", PInt 7); (KStr "hash", some_hash)]])])).

(** A reply of [get_url_files] with one known file. *)
Definition url_files_reply : Response :=
  mkResponse 200 []
    (Some (PDict [(KStr "normalised_url", PStr "https://example.org/1");
                  (KStr "url_file_statuses",
                   PList [PDict [(KStr "status", PInt 2); (KStr "hash", some_hash);
                                 (KStr "note", PStr "")]])])).

(** The field of the body that an operation returns. *)
Definition extracted_field (op : operation) : option string :=
  match op with
  | Op_api_version => Some "version"
  | Op_request_new_permissions _ _ => Some "access_key"
  | Op_clean_tags _ => Some "tags"
  | Op_search_files _ _ _ => Some "file_ids"
  | _ => None
  end.

(** A reply whose JSON body is a list of two tags. *)
Definition list_reply : Response :=
  mkResponse 200 [] (Some (PList [PStr "a"; PStr "b"])).



(** * Proofs *)

Lemma call_endpoint_run (method endpoint : string) (kw : kwargs) (st : State) :
  Client._call_endpoint method endpoint kw st =
  let req := outbound (self st) method endpoint kw in
  (dispatch (network st (sent st) req), after_request st req).
Proof.
  unfold Client._call_endpoint, bind, get_self, session_request, outbound,
    after_request, dispatch; simpl.
  destruct (network st (sent st) _) as [response|what]; [|reflexivity].
  destruct (raises_HTTPError response); [|reflexivity].
  destruct (status_code response =? 400); [reflexivity|].
  destruct ((status_code response =? 401) || (status_code response =? 403));
    [reflexivity|].
  destruct (status_code response =? 500); reflexivity.
Qed.

Lemma invoke_run (op : operation) (st : State) :
  invoke op st =
  match prepare op with
  | Raise e => (Raise e, st)
  | Ok (method, endpoint, kw) =>
      let req := outbound (self st) method endpoint kw in
      (rbind (dispatch (network st (sent st) req)) (translate op), after_request st req)
  end.
Proof.
  destruct op; simpl;
    unfold Client.api_version, Client.request_new_permissions, Client.verify_access_key,
      Client.add_file, Client.clean_tags, Client.get_tag_services, Client.add_tags,
      Client.get_url_files, Client.get_url_info, Client.add_url, Client.associate_url,
      Client.search_files, Client.file_metadata, Client.get_file, Client.get_thumbnail,
      identity_check, opt_param, translate_enum_field, bind, lift, ret, raise.
  all: try (rewrite call_endpoint_run; simpl;
            match goal with |- context [dispatch ?r] => destruct (dispatch r) end;
            reflexivity).
  all: repeat match goal with
         | |- context [json_dumps ?v] => destruct (json_dumps v); simpl
         | |- context [truthy ?v] => destruct (truthy v) eqn:?; simpl
         | |- context [Client.read ?b ?p ?c] => destruct (Client.read b p c); simpl
         | |- context [match ?x with Plain _ => _ | _ => _ end] => destruct x; simpl
         | |- context [match ?x with PStr _ => _ | _ => _ end] => destruct x; simpl
         end.
  all: try reflexivity.
  all: try (rewrite call_endpoint_run; simpl;
            match goal with |- context [dispatch ?r] => destruct (dispatch r) end;
            simpl; try reflexivity).
  all: repeat match goal with
         | |- context [response_json ?r] => destruct (response_json r); simpl
         | |- context [getitem ?d ?k] => destruct (getitem d k); simpl
         | H : truthy ?v = _ |- context [truthy ?v] => rewrite H
         end; try reflexivity.
Qed.

Lemma issued_after_request {A} (m : M A) (st : State) (req : Request) (r : Result A) :
  m st = (r, after_request st req) -> issued m st = [req].
Proof.
  intros E. unfold issued. rewrite E. simpl.
  rewrite skipn_app, skipn_all, Nat.sub_diag. reflexivity.
Qed.

Lemma issued_unchanged {A} (m : M A) (st : State) (r : Result A) :
  m st = (r, st) -> issued m st = [].
Proof.
  intros E. unfold issued. rewrite E. simpl. apply skipn_all.
Qed.

Lemma invoke_issued (op : operation) (st : State) :
  issued (invoke op) st =
  match prepare op with
  | Raise _ => []
  | Ok (method, endpoint, kw) => [outbound (self st) method endpoint kw]
  end.
Proof.
  pose proof (invoke_run op st) as E.
  destruct (prepare op) as [[[method endpoint] kw]|e].
  - eapply issued_after_request. exact E.
  - eapply issued_unchanged. exact E.
Qed.

Lemma invoke_self (op : operation) (st : State) : self (snd (invoke op st)) = self st.
Proof.
  rewrite invoke_run.
  destruct (prepare op) as [[[method endpoint] kw]|e]; reflexivity.
Qed.

(** ** Status mapping of the dispatcher *)

(** C1, as the code has it: given the response the session returns,
    [_call_endpoint] returns it for every status outside 400..599 (the 2xx
    range among them), raises [MissingParameter] for 400,
    [InsufficientAccess] for 401 and 403, [ServerError] for 500 and the
    generic [APIError] for every other status in 400..599; whatever it
    raises is an [APIError] carrying that response. *)
Theorem call_endpoint_status_mapping
    (method endpoint : string) (kw : kwargs) (st : State) (response : Response) :
  network st (sent st) (outbound (self st) method endpoint kw) = Responded response ->
  (status_code response < 400 \/ 600 <= status_code response ->
   fst (Client._call_endpoint method endpoint kw st) = Ok response) /\
  (status_code response = 400 ->
   fst (Client._call_endpoint method endpoint kw st) = Raise (MissingParameter response)) /\
  (status_code response = 401 \/ status_code response = 403 ->
   fst (Client._call_endpoint method endpoint kw st) = Raise (InsufficientAccess response)) /\
  (status_code response = 500 ->
   fst (Client._call_endpoint method endpoint kw st) = Raise (ServerError response)) /\
  (400 <= status_code response < 600 ->
   ~ In (status_code response) [400; 401; 403; 500] ->
   fst (Client._call_endpoint method endpoint kw st) = Raise (APIError response)) /\
  (forall e, fst (Client._call_endpoint method endpoint kw st) = Raise e ->
             is_APIError e = true /\ exn_response e = Some response).
Proof.
  intros Hnet. rewrite call_endpoint_run. cbv zeta. rewrite Hnet.
  unfold dispatch, raises_HTTPError, fst.
  destruct (400 <=? status_code response) eqn:Hlo;
    destruct (status_code response <? 600) eqn:Hhi; cbn [andb];
    destruct (status_code response =? 400) eqn:H400;
    destruct (status_code response =? 401) eqn:H401;
    destruct (status_code response =? 403) eqn:H403;
    destruct (status_code response =? 500) eqn:H500; cbn [orb];
    repeat match goal with
      | H : (_ <=? _) = _ |- _ => first [apply Z.leb_le in H | apply Z.leb_gt in H]
      | H : (_ <? _) = _ |- _ => first [apply Z.ltb_lt in H | apply Z.ltb_ge in H]
      | H : (_ =? _) = _ |- _ => first [apply Z.eqb_eq in H | apply Z.eqb_neq in H]
      end;
    try lia;
    repeat split; intros; cbn [In] in *;
    try reflexivity; try lia; try discriminate;
    try match goal with H : Raise _ = Raise _ |- _ => inversion H; subst; reflexivity end;
    exfalso; intuition lia.
Qed.

Lemma call_endpoint_status_mapping_witness :
  fst (Client._call_endpoint "GET" Client._FILE_ENDPOINT no_kwargs (fresh (stub teapot)))
  = Raise (APIError teapot).
Proof.
  apply (call_endpoint_status_mapping "GET" Client._FILE_ENDPOINT no_kwargs
           (fresh (stub teapot)) teapot eq_refl).
  - simpl; lia.
  - simpl; lia.
Defined.

(** C1, counterexample to the clause on every other status outside the 2xx
    range: status 304 is neither in [200,300) nor one of 400, 401, 403 and
    500, and [_call_endpoint] returns the response instead of raising
    [APIError]. *)
Lemma not_modified_is_returned :
  ~ (200 <= status_code not_modified < 300) /\
  ~ In (status_code not_modified) [400; 401; 403; 500] /\
  fst (Client._call_endpoint "GET" Client._FILE_ENDPOINT no_kwargs
         (fresh (stub not_modified))) = Ok not_modified /\
  fst (Client._call_endpoint "GET" Client._FILE_ENDPOINT no_kwargs
         (fresh (stub not_modified))) <> Raise (APIError not_modified).
Proof.
  repeat split.
  - simpl; lia.
  - simpl; lia.
  - discriminate.
Qed.

(** ** search_files *)

(** C7: when the service answers the search request with a 2xx response
    whose JSON body is an object with a [file_ids] field, [search_files]
    returns the value of that field as it is. *)
Theorem search_files_returns_file_ids
    (tags inbox archive : pyval) (st : State) (response : Response)
    (body : dict) (file_ids : pyval) :
  json_serializable tags = true ->
  json_serializable inbox = true ->
  json_serializable archive = true ->
  network st (sent st) (search_request (self st) tags inbox archive) = Responded response ->
  200 <= status_code response < 300 ->
  json_body response = Some (PDict body) ->
  dict_get (KStr "file_ids") body = Some file_ids ->
  fst (Client.search_files tags inbox archive st) = Ok file_ids.
Proof.
  intros Ht Hi Ha Hnet Hstatus Hbody Hids.
  change (Client.search_files tags inbox archive) with (invoke (Op_search_files tags inbox archive)).
  rewrite invoke_run. unfold prepare, json_dumps. rewrite Ht, Hi, Ha. cbn [rbind fst].
  unfold search_request in Hnet. rewrite Hnet.
  unfold dispatch, raises_HTTPError.
  replace (400 <=? status_code response) with false by (symmetry; apply Z.leb_gt; lia).
  cbn [andb rbind translate]. unfold response_json. rewrite Hbody. cbn [rbind].
  unfold getitem. rewrite Hids. reflexivity.
Qed.

Lemma search_files_returns_file_ids_witness :
  fst (Client.search_files (PList [PStr "character:x"]) (PBool false) (PBool false)
         (fresh (stub three_ids)))
  = Ok (PList [PInt 1; PInt 2; PInt 3]).
Proof.
  apply (search_files_returns_file_ids
           (PList [PStr "character:x"]) (PBool false) (PBool false)
           (fresh (stub three_ids)) three_ids
           [(KStr "file_ids", PList [PInt 1; PInt 2; PInt 3])]);
    try reflexivity.
  simpl; lia.
Defined.

(** ** Construction *)

(** C6: when the service answers the version request with a 2xx response
    reporting [version], construction completes, has made exactly that one
    request, and has issued exactly one warning when [version] differs from
    [VERSION] and none when it does not. *)
Theorem init_checks_version_once
    (access_key : pyval) (url : string) (st : State) (response : Response)
    (body version : pyval) :
  network st (sent st) (version_request access_key url) = Responded response ->
  200 <= status_code response < 300 ->
  json_body response = Some body ->
  getitem body "version" = Ok version ->
  fst (Client.__init__ access_key url st) = Ok tt /\
  self (snd (Client.__init__ access_key url st)) = mkClient access_key (rstrip_slash url) /\
  issued (Client.__init__ access_key url) st = [version_request access_key url] /\
  (int_ne Client.VERSION version = true ->
   warned (snd (Client.__init__ access_key url st)) = (warned st ++ [version_warning version])%list) /\
  (int_ne Client.VERSION version = false ->
   warned (snd (Client.__init__ access_key url st)) = warned st).
Proof.
  intros Hnet Hstatus Hbody Hversion.
  unfold issued, Client.__init__, bind, set_self.
  change Client.api_version with (invoke Op_api_version).
  rewrite invoke_run. cbn [prepare self network sent warned].
  unfold version_request in Hnet. rewrite Hnet.
  unfold dispatch, raises_HTTPError.
  replace (400 <=? status_code response) with false by (symmetry; apply Z.leb_gt; lia).
  cbn [andb rbind translate]. unfold response_json. rewrite Hbody. cbn [rbind].
  rewrite Hversion.
  destruct (int_ne Client.VERSION version); cbn;
    rewrite skipn_app, skipn_all, Nat.sub_diag; repeat split; intros;
    try reflexivity; discriminate.
Qed.

Lemma init_checks_version_once_witness :
  (fst (Client.__init__ (PStr "key") "http://127.0.0.1:45869/" (fresh (stub (reports 5))))
   = Ok tt /\
   warned (snd (Client.__init__ (PStr "key") "http://127.0.0.1:45869/"
                  (fresh (stub (reports 5)))))
   = [version_warning (PInt 5)]) /\
  warned (snd (Client.__init__ (PStr "key") "http://127.0.0.1:45869/"
                 (fresh (stub (reports 4)))))
  = [].
Proof.
  destruct (init_checks_version_once (PStr "key") "http://127.0.0.1:45869/"
              (fresh (stub (reports 5))) (reports 5)
              (PDict [(KStr "version", PInt 5)]) (PInt 5))
    as (Hok & _ & _ & Hwarn & _);
    [reflexivity | simpl; lia | reflexivity | reflexivity |].
  destruct (init_checks_version_once (PStr "key") "http://127.0.0.1:45869/"
              (fresh (stub (reports 4))) (reports 4)
              (PDict [(KStr "version", PInt 4)]) (PInt 4))
    as (_ & _ & _ & _ & Hquiet);
    [reflexivity | simpl; lia | reflexivity | reflexivity |].
  split; [split|].
  - exact Hok.
  - exact (Hwarn eq_refl).
  - exact (Hquiet eq_refl).
Defined.

Lemma init_run (access_key : pyval) (url : string) (st : State) :
  Client.__init__ access_key url st =
  let c := mkClient access_key (rstrip_slash url) in
  let req := version_request access_key url in
  let st1 := mkState c (network st) (sent st ++ [req]) (warned st) in
  match rbind (dispatch (network st (sent st) req)) (translate Op_api_version) with
  | Raise e => (Raise e, st1)
  | Ok version =>
      (Ok tt,
       if int_ne Client.VERSION version
       then mkState c (network st) (sent st ++ [req]) (warned st ++ [version_warning version])
       else st1)
  end.
Proof.
  unfold Client.__init__, bind, set_self.
  change Client.api_version with (invoke Op_api_version).
  rewrite invoke_run. cbn [prepare self network sent warned].
  fold (version_request access_key url).
  destruct (rbind (dispatch (network st (sent st) (version_request access_key url))) _)
    as [version|e]; [|reflexivity].
  cbv zeta. unfold after_request. cbn [self network sent warned].
  destruct (int_ne Client.VERSION version); reflexivity.
Qed.

(** After construction the state holds the new client and one more request;
    the operation that follows adds at most one. *)
Lemma construct_then_issued (access_key : pyval) (url : string) (op : operation) (st : State) :
  let c := mkClient access_key (rstrip_slash url) in
  issued (construct_then access_key url op) st = [version_request access_key url] \/
  exists method endpoint kw,
    prepare op = Ok (method, endpoint, kw) /\
    issued (construct_then access_key url op) st =
      [version_request access_key url; outbound c method endpoint kw].
Proof.
  cbv zeta. unfold issued, construct_then, bind. rewrite init_run. cbv zeta.
  destruct (rbind _ _) as [version|e].
  - rewrite invoke_run.
    assert (Hself : forall b : bool,
              self (if b
                    then mkState (mkClient access_key (rstrip_slash url)) (network st)
                           (sent st ++ [version_request access_key url])
                           (warned st ++ [version_warning version])
                    else mkState (mkClient access_key (rstrip_slash url)) (network st)
                           (sent st ++ [version_request access_key url]) (warned st))
              = mkClient access_key (rstrip_slash url)) by (intros []; reflexivity).
    assert (Hsent : forall b : bool,
              sent (if b
                    then mkState (mkClient access_key (rstrip_slash url)) (network st)
                           (sent st ++ [version_request access_key url])
                           (warned st ++ [version_warning version])
                    else mkState (mkClient access_key (rstrip_slash url)) (network st)
                           (sent st ++ [version_request access_key url]) (warned st))
              = (sent st ++ [version_request access_key url])%list) by (intros []; reflexivity).
    destruct (prepare op) as [[[method endpoint] kw]|e].
    + right. exists method, endpoint, kw. split; [reflexivity|].
      cbn [snd]. unfold after_request. cbn [sent]. rewrite Hself, Hsent.
      rewrite <- app_assoc, skipn_app, skipn_all, Nat.sub_diag. reflexivity.
    + left. cbn [snd]. rewrite Hsent.
      rewrite skipn_app, skipn_all, Nat.sub_diag. reflexivity.
  - left. cbn [snd sent].
    rewrite skipn_app, skipn_all, Nat.sub_diag. reflexivity.
Qed.

(** ** Trailing slashes of the base URL *)

Lemma rstrip_slash_slashes (n : nat) : rstrip_slash (slashes n) = "".
Proof.
  induction n as [|n IH]; [reflexivity|].
  cbn [slashes rstrip_slash]. rewrite IH. reflexivity.
Qed.

Lemma rstrip_slash_trailing (u : string) (n : nat) :
  rstrip_slash (u ++ slashes n) = rstrip_slash u.
Proof.
  induction u as [|c u IH].
  - apply rstrip_slash_slashes.
  - cbn [append rstrip_slash]. rewrite IH. reflexivity.
Qed.

(** C10: a client constructed with base URL [u] followed by any number of
    trailing slashes is the client constructed with [u]: construction and
    any operation after it run identically, every request goes to the
    stripped base URL followed by an endpoint path, and so the URLs of the
    requests of the two clients are the same. *)
Theorem trailing_slashes_are_ignored
    (access_key : pyval) (u : string) (n : nat) (op : operation) (st : State) :
  Client.__init__ access_key (u ++ slashes n) st = Client.__init__ access_key u st /\
  construct_then access_key (u ++ slashes n) op st = construct_then access_key u op st /\
  map req_url (issued (construct_then access_key (u ++ slashes n) op) st)
  = map req_url (issued (construct_then access_key u op) st) /\
  Forall (fun req => exists endpoint, req_url req = rstrip_slash u ++ endpoint)
         (issued (construct_then access_key (u ++ slashes n) op) st).
Proof.
  assert (Hinit : Client.__init__ access_key (u ++ slashes n) st
                  = Client.__init__ access_key u st).
  { rewrite !init_run. unfold version_request. rewrite rstrip_slash_trailing. reflexivity. }
  assert (Hrun : construct_then access_key (u ++ slashes n) op st
                 = construct_then access_key u op st).
  { unfold construct_then, bind. rewrite Hinit. reflexivity. }
  repeat split.
  - exact Hinit.
  - exact Hrun.
  - unfold issued. rewrite Hrun. reflexivity.
  - destruct (construct_then_issued access_key (u ++ slashes n) op st)
      as [E|(method & endpoint & kw & _ & E)]; rewrite E;
      repeat constructor; unfold version_request, outbound; cbn [req_url _url];
      rewrite rstrip_slash_trailing; eexists; reflexivity.
Qed.

(** ** The access key header *)

Lemma headers_get_update (name : string) (v : pyval) (h : list (string * pyval)) :
  headers_get name (headers_update name v h) = Some v.
Proof.
  induction h as [|[n x] h IH]; cbn [headers_update headers_get].
  - rewrite String.eqb_refl. reflexivity.
  - destruct (String.eqb name n) eqn:E; cbn [headers_get]; rewrite E; [reflexivity|exact IH].
Qed.

(** No method sets the access-key header itself. *)
Lemma prepare_no_auth (op : operation) (method endpoint : string) (kw : kwargs) :
  prepare op = Ok (method, endpoint, kw) -> auth_header kw = None.
Proof.
  destruct op; cbn [prepare]; unfold identity_check, opt_param, json_dumps, Client.read;
    repeat match goal with
      | |- context [if ?b then _ else _] => destruct b; cbn [rbind negb]
      | |- context [match ?x with Plain _ => _ | _ => _ end] => destruct x
      | |- context [match ?x with PStr _ => _ | _ => _ end] => destruct x
      end;
    intros H; inversion H; reflexivity.
Qed.

Lemma outbound_auth_header (c : client) (method endpoint : string) (kw : kwargs) :
  auth_header kw = None ->
  auth_header (req_kwargs (outbound c method endpoint kw))
  = if truthy (_access_key c) then Some (_access_key c) else None.
Proof.
  intros H. unfold outbound. cbn [req_kwargs].
  destruct (truthy (_access_key c)); [|exact H].
  unfold auth_header, Client.with_access_key. cbn [kw_headers].
  apply headers_get_update.
Qed.

(** C8: an operation leaves the client, and so its access key, as it found
    it.  [_call_endpoint] hands the session one request, and so does every
    operation whose arguments pass its own checks; that request carries the
    access key in the access-key header when the key is present (truthy, as
    [_call_endpoint] tests it) and carries no such header otherwise.  The
    key a client holds after construction and an operation is the one it
    was constructed with. *)
Theorem access_key_header_on_every_request (op : operation) (st : State) :
  self (snd (invoke op st)) = self st /\
  (truthy (_access_key (self st)) = true ->
   Forall (fun req => auth_header (req_kwargs req) = Some (_access_key (self st)))
          (issued (invoke op) st)) /\
  (truthy (_access_key (self st)) = false ->
   Forall (fun req => auth_header (req_kwargs req) = None) (issued (invoke op) st)) /\
  (forall access_key url,
     _access_key (self (snd (construct_then access_key url op st))) = access_key) /\
  (forall method endpoint kw,
     prepare op = Ok (method, endpoint, kw) ->
     exists req,
       issued (invoke op) st = [req] /\
       auth_header (req_kwargs req)
       = if truthy (_access_key (self st)) then Some (_access_key (self st)) else None) /\
  (forall method endpoint kw,
     auth_header kw = None ->
     exists req,
       issued (Client._call_endpoint method endpoint kw) st = [req] /\
       auth_header (req_kwargs req)
       = if truthy (_access_key (self st)) then Some (_access_key (self st)) else None).
Proof.
  split; [apply invoke_self|].
  assert (Hreq : forall v,
            (if truthy (_access_key (self st)) then Some (_access_key (self st)) else None) = v ->
            Forall (fun req => auth_header (req_kwargs req) = v) (issued (invoke op) st)).
  { intros v Hv. rewrite invoke_issued.
    destruct (prepare op) as [[[method endpoint] kw]|e] eqn:E; [|constructor].
    repeat constructor. rewrite outbound_auth_header by (eapply prepare_no_auth; exact E).
    exact Hv. }
  split; [|split; [|split; [|split]]].
  - intros Hkey. apply Hreq. rewrite Hkey. reflexivity.
  - intros Hkey. apply Hreq. rewrite Hkey. reflexivity.
  - intros access_key url. unfold construct_then, bind. rewrite init_run. cbv zeta.
    destruct (rbind _ _) as [version|e]; [|reflexivity].
    rewrite invoke_self. destruct (int_ne Client.VERSION version); reflexivity.
  - intros method endpoint kw Hp. exists (outbound (self st) method endpoint kw).
    rewrite invoke_issued, Hp. split; [reflexivity|].
    apply outbound_auth_header. eapply prepare_no_auth. exact Hp.
  - intros method endpoint kw Hkw. exists (outbound (self st) method endpoint kw). split.
    + eapply issued_after_request. rewrite call_endpoint_run. reflexivity.
    + apply outbound_auth_header. exact Hkw.
Qed.

Lemma access_key_header_on_every_request_witness :
  (exists req,
     issued (invoke Op_verify_access_key) (keyed (PStr "secret") (stub teapot)) = [req] /\
     auth_header (req_kwargs req) = Some (PStr "secret")) /\
  (exists req,
     issued (invoke Op_verify_access_key) (keyed PNone (stub teapot)) = [req] /\
     auth_header (req_kwargs req) = None) /\
  Forall (fun req => auth_header (req_kwargs req) = Some (PStr "secret"))
         (issued (invoke Op_verify_access_key) (keyed (PStr "secret") (stub teapot))).
Proof.
  split; [|split].
  - destruct (access_key_header_on_every_request Op_verify_access_key
                (keyed (PStr "secret") (stub teapot))) as (_ & _ & _ & _ & Hsent & _).
    exact (Hsent "GET" Client._VERIFY_ACCESS_KEY_ENDPOINT no_kwargs eq_refl).
  - destruct (access_key_header_on_every_request Op_verify_access_key
                (keyed PNone (stub teapot))) as (_ & _ & _ & _ & Hsent & _).
    exact (Hsent "GET" Client._VERIFY_ACCESS_KEY_ENDPOINT no_kwargs eq_refl).
  - apply (access_key_header_on_every_request Op_verify_access_key
             (keyed (PStr "secret") (stub teapot))).
    reflexivity.
Defined.

(** C9: construction with the empty string as access key and construction
    with no access key, each followed by any operation, give the same
    result, the same requests and the same warnings; none of the requests
    carries the access-key header. *)
Theorem empty_access_key_is_no_access_key (url : string) (op : operation) (st : State) :
  fst (construct_then (PStr "") url op st) = fst (construct_then PNone url op st) /\
  issued (construct_then (PStr "") url op) st = issued (construct_then PNone url op) st /\
  warned (snd (construct_then (PStr "") url op st))
  = warned (snd (construct_then PNone url op st)) /\
  Forall (fun req => auth_header (req_kwargs req) = None)
         (issued (construct_then (PStr "") url op) st).
Proof.
  assert (Hrun : forall (b : bool) w,
            let after key :=
              if b
              then mkState (mkClient key (rstrip_slash url)) (network st)
                     (sent st ++ [version_request PNone url]) (warned st ++ [w])
              else mkState (mkClient key (rstrip_slash url)) (network st)
                     (sent st ++ [version_request PNone url]) (warned st) in
            fst (invoke op (after (PStr ""))) = fst (invoke op (after PNone)) /\
            sent (snd (invoke op (after (PStr "")))) = sent (snd (invoke op (after PNone))) /\
            warned (snd (invoke op (after (PStr "")))) = warned (snd (invoke op (after PNone)))).
  { intros b w. cbv zeta. rewrite !invoke_run.
    destruct (prepare op) as [[[method endpoint] kw]|e]; destruct b; repeat split. }
  assert (Hreq : version_request (PStr "") url = version_request PNone url) by reflexivity.
  assert (Hsame : fst (construct_then (PStr "") url op st) = fst (construct_then PNone url op st) /\
                  sent (snd (construct_then (PStr "") url op st))
                  = sent (snd (construct_then PNone url op st)) /\
                  warned (snd (construct_then (PStr "") url op st))
                  = warned (snd (construct_then PNone url op st))).
  { unfold construct_then, bind. rewrite !init_run. cbv zeta. rewrite Hreq.
    destruct (rbind _ _) as [version|e]; [|repeat split].
    apply (Hrun (int_ne Client.VERSION version) (version_warning version)). }
  destruct Hsame as (Hfst & Hsent & Hwarned).
  repeat split.
  - exact Hfst.
  - unfold issued. rewrite Hsent. reflexivity.
  - exact Hwarned.
  - destruct (construct_then_issued (PStr "") url op st)
      as [E|(method & endpoint & kw & Hp & E)]; rewrite E; repeat constructor.
    rewrite outbound_auth_header by (eapply prepare_no_auth; exact Hp). reflexivity.
Qed.

(** ** Exclusive file identity *)

Lemma never_usage_Ok {A} (a : A) : never_usage (Ok a).
Proof. intros [msg H]; discriminate. Qed.

Lemma never_usage_rbind {A B} (r : Result A) (f : A -> Result B) :
  never_usage r -> (forall a, never_usage (f a)) -> never_usage (rbind r f).
Proof.
  intros Hr Hf. destruct r as [a|e]; cbn [rbind]; [apply Hf|].
  intros [msg H]. apply Hr. exists msg. inversion H. reflexivity.
Qed.

Lemma never_usage_rmap {A B} (f : A -> Result B) (l : list A) :
  (forall a, never_usage (f a)) -> never_usage (rmap f l).
Proof.
  intros Hf. induction l as [|a l IH]; cbn [rmap]; [apply never_usage_Ok|].
  apply never_usage_rbind; [apply Hf|]. intros b.
  apply never_usage_rbind; [exact IH|]. intros bs. apply never_usage_Ok.
Qed.

Lemma never_usage_rfold {A B} (f : B -> A -> Result B) (l : list A) (b : B) :
  (forall b a, never_usage (f b a)) -> never_usage (rfold f l b).
Proof.
  intros Hf. revert b. induction l as [|a l IH]; intros b; cbn [rfold];
    [apply never_usage_Ok|].
  apply never_usage_rbind; [apply Hf|exact IH].
Qed.

Ltac never_usage_atom :=
  let H := fresh in
  intros [? H]; repeat match type of H with
                  | context [match ?x with _ => _ end] => destruct x
                  | context [if ?x then _ else _] => destruct x
                  end; discriminate H.

Lemma never_usage_getitem v k : never_usage (getitem v k).
Proof. unfold getitem. never_usage_atom. Qed.

Lemma never_usage_setitem v k x : never_usage (setitem v k x).
Proof. unfold setitem. never_usage_atom. Qed.

Lemma never_usage_items v : never_usage (items v).
Proof. unfold items. never_usage_atom. Qed.

Lemma never_usage_iter v : never_usage (iter v).
Proof. unfold iter. never_usage_atom. Qed.

Lemma never_usage_enum_call cls v : never_usage (enum_call cls v).
Proof. unfold enum_call. never_usage_atom. Qed.

Lemma never_usage_int_of_key k : never_usage (int_of_key k).
Proof. unfold int_of_key. never_usage_atom. Qed.

Lemma never_usage_response_json r : never_usage (response_json r).
Proof. unfold response_json. never_usage_atom. Qed.

Lemma never_usage_dispatch r : never_usage (dispatch r).
Proof. unfold dispatch. never_usage_atom. Qed.

Create HintDb never_usage.
#[local] Hint Resolve never_usage_Ok never_usage_getitem never_usage_setitem
  never_usage_items never_usage_iter never_usage_enum_call never_usage_int_of_key
  never_usage_response_json never_usage_dispatch never_usage_rbind never_usage_rmap
  never_usage_rfold : never_usage.
#[local] Hint Opaque never_usage : never_usage.

Lemma never_usage_rekey_status d entry : never_usage (Client.rekey_status d entry).
Proof.
  unfold Client.rekey_status. destruct entry as [status tags].
  apply never_usage_rbind; auto with never_usage. intros n.
  apply never_usage_rbind; auto with never_usage. intros new_status.
  never_usage_atom.
Qed.

Lemma never_usage_rekey_service entry : never_usage (Client.rekey_service entry).
Proof.
  unfold Client.rekey_service. destruct entry as [service status_to_tags].
  pose proof never_usage_rekey_status. auto 8 with never_usage.
Qed.

Lemma never_usage_rekey_datum datum : never_usage (Client.rekey_datum datum).
Proof.
  unfold Client.rekey_datum, Client.updated.
  pose proof never_usage_rekey_service. auto 8 with never_usage.
Qed.

Lemma never_usage_for_each f v :
  (forall x, never_usage (f x)) -> never_usage (Client.for_each_in_place f v).
Proof.
  intros Hf. unfold Client.for_each_in_place. auto 8 with never_usage.
Qed.

(** Translating a response never raises the error of the identity check. *)
Lemma never_usage_translate op response : never_usage (translate op response).
Proof.
  pose proof never_usage_rekey_datum. pose proof never_usage_for_each.
  destruct op; cbn [translate];
    unfold translate_enum_field, Client.updated; auto 10 with never_usage.
  - apply never_usage_rbind; auto with never_usage. intros data.
    apply never_usage_rbind; auto with never_usage. intros statuses.
    apply never_usage_rbind; auto with never_usage.
    apply never_usage_for_each. intros x. unfold Client.import_status_of.
    auto 8 with never_usage.
  - apply never_usage_rbind; auto with never_usage. intros body.
    apply never_usage_rbind; auto with never_usage. intros data.
    destruct (truthy only_identifiers); auto with never_usage.
Qed.

Lemma invoke_never_usage (op : operation) (st : State) :
  never_usage (prepare op) -> never_usage (fst (invoke op st)).
Proof.
  intros Hp. rewrite invoke_run.
  destruct (prepare op) as [[[method endpoint] kw]|e]; cbn [fst].
  - apply never_usage_rbind; [apply never_usage_dispatch|].
    intros response. apply never_usage_translate.
  - intros [msg H]. apply Hp. exists msg. inversion H. reflexivity.
Qed.

Lemma never_usage_opt_param k v params : never_usage (opt_param k v params).
Proof. unfold opt_param, json_dumps. never_usage_atom. Qed.

(** C2, as the code has it: for [file_metadata], [get_file] and
    [get_thumbnail], an identity form counts when its argument is truthy.
    When both arguments are truthy or neither is, the bare [Exception] of
    the check is raised and the state is untouched, so that nothing was
    sent; when exactly one is truthy, that error is not raised, and one
    request is issued (for [file_metadata], provided its arguments can be
    encoded as JSON). *)
Theorem identity_forms_exclusive_by_truth
    (o : identity_op) (by_hash by_id : pyval) (st : State) :
  (truthy by_hash = truthy by_id ->
   is_usage_error (fst (invoke (identity_call o by_hash by_id) st)) /\
   snd (invoke (identity_call o by_hash by_id) st) = st /\
   issued (invoke (identity_call o by_hash by_id)) st = []) /\
  (truthy by_hash <> truthy by_id ->
   ~ is_usage_error (fst (invoke (identity_call o by_hash by_id) st)) /\
   (encodable o by_hash by_id = true ->
    exists req, issued (invoke (identity_call o by_hash by_id)) st = [req])).
Proof.
  split.
  - intros Hsame. rewrite invoke_issued, invoke_run.
    destruct o; cbn [identity_call prepare]; unfold identity_check; rewrite Hsame;
      destruct (truthy by_id); cbn [xorb negb rbind fst snd];
      (split; [eexists; reflexivity|split; reflexivity]).
  - intros Hdiff. split.
    + apply invoke_never_usage.
      pose proof never_usage_opt_param.
      destruct o; cbn [identity_call prepare]; unfold identity_check;
        destruct (truthy by_hash), (truthy by_id); try congruence;
        cbn [xorb negb rbind]; auto 10 with never_usage.
    + intros Henc. rewrite invoke_issued.
      destruct o; cbn [identity_call prepare encodable] in *; unfold identity_check, opt_param;
        destruct (truthy by_hash), (truthy by_id); try congruence;
        cbn [xorb negb rbind]; try (eexists; reflexivity).
      all: apply andb_prop in Henc; destruct Henc as [Henc Ho];
        apply andb_prop in Henc; destruct Henc as [Hh Hi];
        unfold json_dumps; rewrite ?Hh, ?Hi, ?Ho; cbn [rbind];
        destruct (truthy only_identifiers); cbn [rbind]; rewrite ?Ho; cbn [rbind];
        eexists; reflexivity.
Qed.

Lemma identity_forms_exclusive_by_truth_witness :
  (is_usage_error
     (fst (invoke (Op_file_metadata (PList [some_hash]) (PList [PInt 7]) (PBool false))
             (fresh (stub teapot)))) /\
   issued (invoke (Op_file_metadata (PList [some_hash]) (PList [PInt 7]) (PBool false)))
          (fresh (stub teapot)) = []) /\
  exists req,
    issued (invoke (Op_get_thumbnail PNone (PInt 7))) (fresh (stub teapot)) = [req].
Proof.
  split.
  - destruct (identity_forms_exclusive_by_truth (Id_file_metadata (PBool false))
                (PList [some_hash]) (PList [PInt 7]) (fresh (stub teapot)))
      as [Hboth _].
    destruct (Hboth eq_refl) as (Herr & _ & Hnone). split; [exact Herr|exact Hnone].
  - destruct (identity_forms_exclusive_by_truth Id_get_thumbnail
                PNone (PInt 7) (fresh (stub teapot)))
      as [_ Hone].
    destruct Hone as [_ Hreq]; [simpl; discriminate|].
    apply Hreq. reflexivity.
Defined.

(** C2, counterexample: the numeric identifier 0 is supplied and the hash is
    not, yet [get_file] raises the error of the identity check; and with a
    hash and the identifier 0 both supplied, [get_file] raises nothing and
    sends a request. *)
Lemma identifier_zero_counts_as_absent :
  supplied PNone = false /\ supplied (PInt 0) = true /\ supplied some_hash = true /\
  invoke (Op_get_file PNone (PInt 0)) (fresh (stub teapot))
  = (Raise (Exception "hash (exclusive) or file_id required"), fresh (stub teapot)) /\
  issued (invoke (Op_get_file some_hash (PInt 0))) (fresh (stub teapot))
  = [mkRequest "GET" "/get_files/file"
       (mkKwargs (Some [("hash", Verbatim some_hash)]) None None None)].
Proof. repeat split. Qed.

(** ** add_file: dispatch on the type of the argument *)

(** C5, the code at its arguments: a string is sent as the JSON body
    [{'path': path}]; an open [io.BytesIO] is sent as the raw body with
    content type [application/octet-stream]; a binary file object of another
    class, such as the one [open(path, 'rb')] returns, is refused with the
    [ValueError] of the type check and nothing is sent, as is every plain
    value that is not a string. *)
Theorem add_file_by_argument_type (st : State) :
  (forall path,
     issued (Client.add_file (Plain (PStr path))) st
     = [add_file_path_request (self st) path]) /\
  (forall buffer pos,
     issued (Client.add_file (BytesIO buffer pos false)) st
     = [add_file_bytes_request (self st) (skipn pos buffer)]) /\
  (forall buffer pos closed,
     Client.add_file (BufferedReader buffer pos closed) st
     = (Raise add_file_usage_error, st)) /\
  (forall v,
     match v with
     | PStr _ => True
     | _ => Client.add_file (Plain v) st = (Raise add_file_usage_error, st)
     end).
Proof.
  repeat split.
  - intros path.
    change (Client.add_file (Plain (PStr path))) with (invoke (Op_add_file (Plain (PStr path)))).
    rewrite invoke_issued. reflexivity.
  - intros buffer pos.
    change (Client.add_file (BytesIO buffer pos false))
      with (invoke (Op_add_file (BytesIO buffer pos false))).
    rewrite invoke_issued. reflexivity.
  - intros [].
    all: try exact I.
    all: reflexivity.
Qed.

(** ** Enumerated fields *)

Lemma key_eqb_refl (k : key) : key_eqb k k = true.
Proof.
  destruct k; cbn [key_eqb]; [apply String.eqb_refl|apply Z.eqb_refl|apply Z.eqb_refl].
Qed.

Lemma dict_get_set_same (k : key) (x : pyval) (d : dict) :
  dict_get k (dict_set k x d) = Some x.
Proof.
  induction d as [|[k' v'] d IH]; cbn [dict_set dict_get].
  - rewrite key_eqb_refl. reflexivity.
  - destruct (key_eqb k k') eqn:E; cbn [dict_get]; rewrite E; [reflexivity|exact IH].
Qed.

Lemma enum_lookup_sound (cls : enum_class) (n : Z) (e : enum_member) :
  enum_lookup cls n = Some e -> enum_value e = n /\ member_class e = Some cls.
Proof.
  destruct cls; cbn [enum_lookup];
    unfold Permission.of_Z, URLType.of_Z, ImportStatus.of_Z, TagStatus.of_Z;
    destruct n as [|p|p]; try discriminate;
    do 3 (try destruct p as [p|p|]; try discriminate);
    cbn [option_map]; intros H; inversion H; split; reflexivity.
Qed.

Lemma rmap_then_Ok {A B C} (f : A -> Result B) (g : B -> C) (l : list A) :
  rmap (fun a => rbind (f a) (fun b => Ok (g b))) l
  = rbind (rmap f l) (fun bs => Ok (map g bs)).
Proof.
  induction l as [|a l IH]; [reflexivity|].
  cbn [rmap]. rewrite IH.
  destruct (f a) as [b|e]; [|reflexivity]. cbn [rbind].
  destruct (rmap f l) as [bs|e]; reflexivity.
Qed.

(** Calling the class on each value succeeds when all are inside the closed
    set, and names a value that is not a member when one is outside. *)
Lemma enum_calls_inside (cls : enum_class) (raw : list pyval) :
  Forall (inside cls) raw ->
  exists members, rmap (enum_call cls) raw = Ok members /\ Forall2 (typed_as cls) raw members.
Proof.
  induction 1 as [|v raw (n & e & -> & Hn) _ (members & Hm & Hall)].
  - exists []. split; [reflexivity|constructor].
  - exists (e :: members). cbn [rmap]. unfold enum_call at 1. cbn [int_value].
    rewrite Hn. cbn [rbind]. rewrite Hm. split; [reflexivity|].
    constructor; [|exact Hall].
    destruct (enum_lookup_sound cls n e Hn) as [<- Hc]. split; [reflexivity|exact Hc].
Qed.

Lemma enum_calls_outside (cls : enum_class) (raw : list pyval) :
  Exists (outside cls) raw ->
  exists v, In v raw /\ rmap (enum_call cls) raw = Raise (NotAValid v cls).
Proof.
  induction 1 as [v raw (n & -> & Hn)|v raw _ (v' & Hin & Hr)].
  - exists (PInt n). split; [left; reflexivity|].
    cbn [rmap]. unfold enum_call at 1. cbn [int_value]. rewrite Hn. reflexivity.
  - cbn [rmap]. destruct (enum_call cls v) as [e|err] eqn:E.
    + exists v'. split; [right; exact Hin|]. cbn [rbind]. rewrite Hr. reflexivity.
    + exists v. split; [left; reflexivity|]. cbn [rbind].
      unfold enum_call in E. destruct (int_value v) as [z|];
        [destruct (enum_lookup cls z)|]; congruence.
Qed.

(** The loop of [get_url_files] on a list whose elements have the statuses
    [raw]. *)
Lemma import_statuses (l : list pyval) (raw : list pyval) :
  rmap (fun file_status => getitem file_status "status") l = Ok raw ->
  match rmap (enum_call ClsImportStatus) raw with
  | Ok members =>
      exists l', rmap Client.import_status_of l = Ok l' /\
                 rmap (fun file_status => getitem file_status "status") l'
                 = Ok (map PEnum members)
  | Raise e => rmap Client.import_status_of l = Raise e
  end.
Proof.
  revert raw. induction l as [|file_status l IH]; intros raw Hraw.
  - inversion Hraw. exists []. split; reflexivity.
  - cbn [rmap] in Hraw.
    destruct (getitem file_status "status") as [v|] eqn:Hv; [|discriminate].
    cbn [rbind] in Hraw.
    destruct (rmap (fun fs => getitem fs "status") l) as [raw'|] eqn:Hl; [|discriminate].
    inversion Hraw; subst raw. specialize (IH raw' eq_refl).
    cbn [rmap]. unfold Client.import_status_of at 1 3. rewrite Hv. cbn [rbind].
    destruct (enum_call ClsImportStatus v) as [e|err]; cbn [rbind]; [|reflexivity].
    destruct file_status as [| | | | | | |d]; try discriminate. cbn [setitem rbind].
    destruct (rmap (enum_call ClsImportStatus) raw') as [members|err]; cbn [rbind].
    + destruct IH as (l' & Hl' & Hfields). rewrite Hl'. cbn [rbind].
      eexists. split; [reflexivity|].
      cbn [rmap getitem]. rewrite dict_get_set_same. cbn [rbind]. rewrite Hfields.
      reflexivity.
    + rewrite IH. reflexivity.
Qed.

(** The translation of a body succeeds exactly when the class accepts each
    of its enumeration fields, and the fields of the result are then the
    members. *)
Lemma translate_fields (op : operation) (cls : enum_class) (response : Response)
    (data : pyval) (raw : list pyval) :
  field_class op = Some cls ->
  json_body response = Some data ->
  enum_fields op data = Some raw ->
  match rmap (enum_call cls) raw with
  | Ok members =>
      exists data', translate op response = Ok data' /\
                    enum_fields op data' = Some (map PEnum members)
  | Raise e => translate op response = Raise e
  end.
Proof.
  intros Hcls Hbody Hraw.
  destruct op; try discriminate; inversion Hcls; subst cls;
    cbn [translate enum_fields] in *; unfold response_json; rewrite Hbody; cbn [rbind].
  - (* verify_access_key *)
    destruct (getitem data "basic_permissions") as [[| | | | | |l|]|] eqn:Hl;
      try discriminate.
    inversion Hraw; subst l. cbn [iter py_iter rbind].
    rewrite (rmap_then_Ok (enum_call ClsPermission) PEnum raw).
    destruct (rmap (enum_call ClsPermission) raw) as [members|e]; cbn [rbind];
      [|reflexivity].
    destruct data as [| | | | | | |d]; try discriminate. cbn [setitem].
    eexists. split; [reflexivity|]. cbn [getitem]. rewrite dict_get_set_same. reflexivity.
  - (* add_file *)
    unfold translate_enum_field.
    destruct (getitem data "status") as [v|] eqn:Hv; [|discriminate].
    inversion Hraw; subst raw. cbn [rbind rmap].
    destruct (enum_call ClsImportStatus v) as [e|err]; cbn [rbind]; [|reflexivity].
    destruct data as [| | | | | | |d]; try discriminate. cbn [setitem].
    eexists. split; [reflexivity|]. cbn [getitem]. rewrite dict_get_set_same. reflexivity.
  - (* get_url_files *)
    destruct (getitem data "url_file_statuses") as [[| | | | | |l|]|] eqn:Hl;
      try discriminate.
    cbn [rbind]. unfold Client.for_each_in_place. cbn [iter py_iter rbind].
    destruct (rmap (fun fs => getitem fs "status") l) as [raw'|] eqn:Hs; [|discriminate].
    inversion Hraw; subst raw'.
    pose proof (import_statuses l raw Hs) as H.
    destruct (rmap (enum_call ClsImportStatus) raw) as [members|err].
    + destruct H as (l' & Hl' & Hfields). rewrite Hl'. cbn [rbind].
      destruct data as [| | | | | | |d]; try discriminate.
      unfold Client.updated. cbn [setitem].
      eexists. split; [reflexivity|]. cbn [getitem]. rewrite dict_get_set_same.
      rewrite Hfields. reflexivity.
    + rewrite H. reflexivity.
  - (* get_url_info *)
    unfold translate_enum_field.
    destruct (getitem data "url_type") as [v|] eqn:Hv; [|discriminate].
    inversion Hraw; subst raw. cbn [rbind rmap].
    destruct (enum_call ClsURLType v) as [e|err]; cbn [rbind]; [|reflexivity].
    destruct data as [| | | | | | |d]; try discriminate. cbn [setitem].
    eexists. split; [reflexivity|]. cbn [getitem]. rewrite dict_get_set_same. reflexivity.
Qed.

Lemma invoke_translated (op : operation) (method endpoint : string) (kw : kwargs)
    (st : State) (response : Response) :
  prepare op = Ok (method, endpoint, kw) ->
  network st (sent st) (outbound (self st) method endpoint kw) = Responded response ->
  200 <= status_code response < 300 ->
  fst (invoke op st) = translate op response.
Proof.
  intros Hp Hnet Hstatus. rewrite invoke_run, Hp. cbv zeta. rewrite Hnet.
  unfold dispatch, raises_HTTPError.
  replace (400 <=? status_code response) with false by (symmetry; apply Z.leb_gt; lia).
  reflexivity.
Qed.

(** C4: for [add_file], [get_url_files], [get_url_info] and
    [verify_access_key], given a 2xx response with a JSON body whose
    enumeration fields are [raw]: when every field is an integer of the
    closed set, the operation returns a body whose enumeration fields are
    the members with those values; when some field is an integer outside
    the closed set, the operation raises the [ValueError] of the enum class
    for a field that is not a member, which is no [APIError], is not the
    bare [Exception] of the identity check and is not the error of the
    argument check of [add_file]. *)
Theorem enumerated_fields_are_typed
    (op : operation) (cls : enum_class) (method endpoint : string) (kw : kwargs)
    (st : State) (response : Response) (data : pyval) (raw : list pyval) :
  field_class op = Some cls ->
  prepare op = Ok (method, endpoint, kw) ->
  network st (sent st) (outbound (self st) method endpoint kw) = Responded response ->
  200 <= status_code response < 300 ->
  json_body response = Some data ->
  enum_fields op data = Some raw ->
  (Forall (inside cls) raw ->
   exists data' members,
     fst (invoke op st) = Ok data' /\
     enum_fields op data' = Some (map PEnum members) /\
     Forall2 (typed_as cls) raw members) /\
  (Exists (outside cls) raw ->
   exists v,
     In v raw /\
     fst (invoke op st) = Raise (NotAValid v cls) /\
     is_data_format_error (NotAValid v cls) /\
     class_of (NotAValid v cls) = CValueError /\
     is_APIError (NotAValid v cls) = false /\
     (forall msg, NotAValid v cls <> Exception msg) /\
     NotAValid v cls <> add_file_usage_error).
Proof.
  intros Hcls Hp Hnet Hstatus Hbody Hraw.
  rewrite (invoke_translated op method endpoint kw st response Hp Hnet Hstatus).
  pose proof (translate_fields op cls response data raw Hcls Hbody Hraw) as H.
  split.
  - intros Hin. destruct (enum_calls_inside cls raw Hin) as (members & Hm & Hall).
    rewrite Hm in H. destruct H as (data' & Hok & Hfields).
    exists data', members. repeat split; assumption.
  - intros Hout. destruct (enum_calls_outside cls raw Hout) as (v & Hin & Hv).
    rewrite Hv in H. exists v. repeat split; try assumption.
    + exists v, cls. reflexivity.
    + discriminate.
    + discriminate.
Qed.

Lemma enumerated_fields_are_typed_witness :
  (exists data' members,
     fst (invoke (Op_add_file (Plain (PStr "/tmp/a.png"))) (fresh (stub (import_reply 7))))
     = Ok data' /\
     enum_fields (Op_add_file (Plain (PStr "/tmp/a.png"))) data' = Some (map PEnum members) /\
     Forall2 (typed_as ClsImportStatus) [PInt 7] members) /\
  (exists v,
     In v [PInt 5] /\
     fst (invoke (Op_add_file (Plain (PStr "/tmp/a.png"))) (fresh (stub (import_reply 5))))
     = Raise (NotAValid v ClsImportStatus)).
Proof.
  split.
  - destruct (enumerated_fields_are_typed (Op_add_file (Plain (PStr "/tmp/a.png")))
                ClsImportStatus "POST" Client._ADD_FILE_ENDPOINT
                (mkKwargs None (Some (PDict [(KStr "path", PStr "/tmp/a.png")])) None None)
                (fresh (stub (import_reply 7))) (import_reply 7)
                (PDict [(KStr "status", PInt 7); (KStr "hash", some_hash)]) [PInt 7])
      as [Hin _];
      [reflexivity | reflexivity | reflexivity | simpl; lia | reflexivity | reflexivity |].
    apply Hin. repeat constructor. exists 7, (EImportStatus ImportStatus.Vetoed).
    split; reflexivity.
  - destruct (enumerated_fields_are_typed (Op_add_file (Plain (PStr "/tmp/a.png")))
                ClsImportStatus "POST" Client._ADD_FILE_ENDPOINT
                (mkKwargs None (Some (PDict [(KStr "path", PStr "/tmp/a.png")])) None None)
                (fresh (stub (import_reply 5))) (import_reply 5)
                (PDict [(KStr "status", PInt 5); (KStr "hash", some_hash)]) [PInt 5])
      as [_ Hout];
      [reflexivity | reflexivity | reflexivity | simpl; lia | reflexivity | reflexivity |].
    destruct Hout as (v & Hv & Hraise & _).
    + constructor. exists 5. split; reflexivity.
    + exists v. split; assumption.
Defined.

(** ** file_metadata: statuses of the tag services *)











(** * Further properties *)

(** ** One request per operation *)

Lemma invoke_request (op : operation) (st : State) (req : Request) :
  issued (invoke op) st = [req] ->
  exists method endpoint kw,
    prepare op = Ok (method, endpoint, kw) /\
    req = outbound (self st) method endpoint kw /\
    invoke op st
    = (rbind (dispatch (network st (sent st) req)) (translate op), after_request st req).
Proof.
  intros H. rewrite invoke_issued in H. rewrite invoke_run.
  destruct (prepare op) as [[[method endpoint] kw]|e]; [|discriminate].
  inversion H. exists method, endpoint, kw. repeat split.
Qed.

(** X1: an operation either raises before calling the session and leaves the
    state as it was, or hands exactly one request to the session and changes
    nothing but the request log, whatever the reply. *)
Theorem operation_sends_at_most_once (op : operation) (st : State) :
  (exists e, invoke op st = (Raise e, st) /\ issued (invoke op) st = []) \/
  (exists req, snd (invoke op st) = after_request st req /\
               issued (invoke op) st = [req]).
Proof.
  rewrite invoke_issued, invoke_run.
  destruct (prepare op) as [[[method endpoint] kw]|e].
  - right. eexists. split; reflexivity.
  - left. exists e. split; reflexivity.
Qed.

(** X2: when the session raises on the request of an operation, the
    operation raises that exception; nothing catches or retries. *)
Theorem transport_failure_propagates
    (op : operation) (st : State) (req : Request) (what : string) :
  issued (invoke op) st = [req] ->
  network st (sent st) req = Failed what ->
  fst (invoke op st) = Raise (RequestException what).
Proof.
  intros Hreq Hnet. destruct (invoke_request op st req Hreq) as (m & ep & kw & _ & _ & E).
  rewrite E, Hnet. reflexivity.
Qed.

Lemma transport_failure_propagates_witness :
  fst (invoke (Op_search_files (PList []) (PBool false) (PBool false))
         (keyed PNone unreachable))
  = Raise (RequestException "ConnectionError").
Proof.
  eapply (transport_failure_propagates
            (Op_search_files (PList []) (PBool false) (PBool false))
            (keyed PNone unreachable)); reflexivity.
Defined.

Lemma dispatch_error (response : Response) :
  400 <= status_code response < 600 ->
  exists e, dispatch (Responded response) = Raise e /\
            is_APIError e = true /\ exn_response e = Some response.
Proof.
  intros H. unfold dispatch, raises_HTTPError.
  replace (400 <=? status_code response) with true by (symmetry; apply Z.leb_le; lia).
  replace (status_code response <? 600) with true by (symmetry; apply Z.ltb_lt; lia).
  cbn [andb].
  destruct (status_code response =? 400); [eexists; repeat split|].
  destruct ((status_code response =? 401) || (status_code response =? 403));
    [eexists; repeat split|].
  destruct (status_code response =? 500); eexists; repeat split.
Qed.

Lemma dispatch_passes (response : Response) :
  passes response -> dispatch (Responded response) = Ok response.
Proof.
  intros H. unfold dispatch, raises_HTTPError.
  destruct (400 <=? status_code response) eqn:Hlo;
    destruct (status_code response <? 600) eqn:Hhi; try reflexivity.
  apply Z.leb_le in Hlo. apply Z.ltb_lt in Hhi. unfold passes in H. lia.
Qed.

(** X3: a reply with a status from 400 to 599 makes every operation raise an
    [APIError] that carries the reply; the body is not looked at. *)
Theorem http_error_preempts_translation
    (op : operation) (st : State) (req : Request) (response : Response) :
  issued (invoke op) st = [req] ->
  network st (sent st) req = Responded response ->
  400 <= status_code response < 600 ->
  exists e, fst (invoke op st) = Raise e /\
            is_APIError e = true /\ exn_response e = Some response.
Proof.
  intros Hreq Hnet Hstatus.
  destruct (invoke_request op st req Hreq) as (m & ep & kw & _ & _ & E).
  destruct (dispatch_error response Hstatus) as (e & He & Hapi & Hresp).
  exists e. rewrite E, Hnet, He. repeat split; assumption.
Qed.

Lemma http_error_preempts_translation_witness :
  exists e,
    fst (invoke (Op_search_files (PList []) (PBool false) (PBool false))
           (keyed PNone (stub forbidden))) = Raise e /\
    is_APIError e = true /\ exn_response e = Some forbidden.
Proof.
  eapply (http_error_preempts_translation
            (Op_search_files (PList []) (PBool false) (PBool false))
            (keyed PNone (stub forbidden))); [reflexivity | reflexivity | simpl; lia].
Defined.

(** X4: [add_tags] and [associate_url] return [None], and [get_file] and
    [get_thumbnail] return the content of the reply byte for byte, for every
    reply that passes the status check, whether or not its body is JSON;
    every other operation raises [JSONDecodeError] when the body is not
    JSON. *)
Theorem body_is_parsed_only_where_needed
    (op : operation) (st : State) (req : Request) (response : Response) :
  issued (invoke op) st = [req] ->
  network st (sent st) req = Responded response ->
  passes response ->
  match op with
  | Op_add_tags _ _ _ | Op_associate_url _ _ _ => fst (invoke op st) = Ok PNone
  | Op_get_file _ _ | Op_get_thumbnail _ _ =>
      fst (invoke op st) = Ok (PBytes (content response))
  | _ => json_body response = None -> fst (invoke op st) = Raise JSONDecodeError
  end.
Proof.
  intros Hreq Hnet Hpass.
  destruct (invoke_request op st req Hreq) as (m & ep & kw & _ & _ & E).
  rewrite E, Hnet, (dispatch_passes response Hpass). cbn [rbind fst].
  destruct op; cbn [translate]; try reflexivity;
    intros Hbody; unfold response_json; rewrite Hbody; reflexivity.
Qed.

Lemma body_is_parsed_only_where_needed_witness :
  fst (invoke (Op_get_file some_hash PNone) (keyed PNone (stub image_reply)))
  = Ok (PBytes [x89; x50; x4e; x47]) /\
  fst (invoke Op_get_tag_services (keyed PNone (stub image_reply)))
  = Raise JSONDecodeError.
Proof.
  split.
  - apply (body_is_parsed_only_where_needed (Op_get_file some_hash PNone)
             (keyed PNone (stub image_reply)) _ image_reply eq_refl eq_refl).
    left; simpl; lia.
  - apply (body_is_parsed_only_where_needed Op_get_tag_services
             (keyed PNone (stub image_reply)) _ image_reply eq_refl eq_refl).
    + left; simpl; lia.
    + reflexivity.
Defined.

(** ** What the requests carry *)

(** X5: the JSON body of [add_tags], [add_url] and [associate_url] always
    has the mandatory field, and has each optional field exactly when its
    argument is truthy, so that an empty mapping or list is left out. *)
Theorem optional_fields_sent_when_truthy (x a b : pyval) (st : State) :
  (exists body,
     issued (Client.add_tags x a b) st
     = [outbound (self st) "POST" Client._ADD_TAGS_ENDPOINT
          (mkKwargs None (Some (PDict body)) None None)] /\
     dict_get (KStr "hashes") body = Some x /\
     dict_get (KStr "service_names_to_tags") body = (if truthy a then Some a else None) /\
     dict_get (KStr "service_names_to_actions_to_tags") body
     = (if truthy b then Some b else None)) /\
  (exists body,
     issued (Client.add_url x a b) st
     = [outbound (self st) "POST" Client._ADD_URL_ENDPOINT
          (mkKwargs None (Some (PDict body)) None None)] /\
     dict_get (KStr "url") body = Some x /\
     dict_get (KStr "destination_page_name") body = (if truthy a then Some a else None) /\
     dict_get (KStr "service_names_to_tags") body = (if truthy b then Some b else None)) /\
  (exists body,
     issued (Client.associate_url x a b) st
     = [outbound (self st) "POST" Client._ASSOCIATE_URL_ENDPOINT
          (mkKwargs None (Some (PDict body)) None None)] /\
     dict_get (KStr "hashes") body = Some x /\
     dict_get (KStr "urls_to_add") body = (if truthy a then Some a else None) /\
     dict_get (KStr "urls_to_delete") body = (if truthy b then Some b else None)).
Proof.
  change (Client.add_tags x a b) with (invoke (Op_add_tags x a b)).
  change (Client.add_url x a b) with (invoke (Op_add_url x a b)).
  change (Client.associate_url x a b) with (invoke (Op_associate_url x a b)).
  rewrite !invoke_issued. cbn [prepare]. unfold Client.set_if_truthy.
  repeat split; eexists; (split; [reflexivity|]);
    destruct (truthy a), (truthy b); repeat split.
Qed.

(** X6: when exactly one of the two arguments is truthy, [get_file] and
    [get_thumbnail] send that one as the only parameter, [hash] or
    [file_id], and leave the other out. *)
Theorem identity_parameter_is_the_truthy_one (hash_ file_id : pyval) (st : State) :
  truthy hash_ <> truthy file_id ->
  issued (Client.get_file hash_ file_id) st
  = [outbound (self st) "GET" Client._FILE_ENDPOINT
       (mkKwargs (Some [if truthy hash_ then ("hash", Verbatim hash_)
                        else ("file_id", Verbatim file_id)]) None None None)] /\
  issued (Client.get_thumbnail hash_ file_id) st
  = [outbound (self st) "GET" Client._THUMBNAIL_ENDPOINT
       (mkKwargs (Some [if truthy hash_ then ("hash", Verbatim hash_)
                        else ("file_id", Verbatim file_id)]) None None None)].
Proof.
  intros Hdiff.
  change (Client.get_file hash_ file_id) with (invoke (Op_get_file hash_ file_id)).
  change (Client.get_thumbnail hash_ file_id) with (invoke (Op_get_thumbnail hash_ file_id)).
  rewrite !invoke_issued. cbn [prepare]. unfold identity_check, Client.identity_params.
  destruct (truthy hash_), (truthy file_id); try congruence; split; reflexivity.
Qed.

Lemma identity_parameter_is_the_truthy_one_witness :
  issued (Client.get_file PNone (PInt 7)) (keyed PNone (stub image_reply))
  = [mkRequest "GET" "http://127.0.0.1:45869/get_files/file"
       (mkKwargs (Some [("file_id", Verbatim (PInt 7))]) None None None)].
Proof.
  apply (identity_parameter_is_the_truthy_one PNone (PInt 7) (keyed PNone (stub image_reply))).
  simpl; discriminate.
Defined.

Lemma headers_get_update_other (name other : string) (v : pyval) (h : list (string * pyval)) :
  String.eqb other name = false ->
  headers_get other (headers_update name v h) = headers_get other h.
Proof.
  intros Hne. induction h as [|[n x] h IH]; cbn [headers_update headers_get].
  - rewrite Hne. reflexivity.
  - destruct (String.eqb name n) eqn:E; cbn [headers_get].
    + apply String.eqb_eq in E. subst n. rewrite Hne. reflexivity.
    + rewrite IH. reflexivity.
Qed.

(** X7: [_call_endpoint] makes one request, to the base URL followed by the
    endpoint, with the method, parameters, JSON body and data it was given;
    of the headers it changes the access-key header only, so that a
    [Content-Type] given by the caller stays. *)
Theorem call_endpoint_forwards_arguments
    (method endpoint : string) (kw : kwargs) (st : State) :
  exists req,
    issued (Client._call_endpoint method endpoint kw) st = [req] /\
    req_method req = method /\
    req_url req = _url (self st) ++ endpoint /\
    kw_params (req_kwargs req) = kw_params kw /\
    kw_json (req_kwargs req) = kw_json kw /\
    kw_data (req_kwargs req) = kw_data kw /\
    forall name,
      String.eqb name Client.ACCESS_KEY_HEADER = false ->
      match kw_headers (req_kwargs req) with
      | Some h => headers_get name h
      | None => None
      end
      = match kw_headers kw with
        | Some h => headers_get name h
        | None => None
        end.
Proof.
  exists (outbound (self st) method endpoint kw). split.
  - eapply issued_after_request. rewrite call_endpoint_run. reflexivity.
  - unfold outbound. cbn [req_method req_url req_kwargs].
    destruct (truthy (_access_key (self st))); repeat split.
    intros name Hname. unfold Client.with_access_key. cbn [kw_headers].
    rewrite headers_get_update_other by exact Hname.
    destruct (kw_headers kw); reflexivity.
Qed.

(** X8: an operation called with [GET] carries parameters at most and no
    body; an operation called with [POST] carries a body and no parameters. *)
Theorem body_goes_with_post
    (op : operation) (method endpoint : string) (kw : kwargs) :
  prepare op = Ok (method, endpoint, kw) ->
  (method = "GET" /\ has_body kw = false) \/
  (method = "POST" /\ has_body kw = true /\ kw_params kw = None).
Proof.
  destruct op; cbn [prepare]; unfold identity_check, opt_param, json_dumps, Client.read;
    repeat match goal with
      | |- context [if ?b then _ else _] => destruct b; cbn [rbind negb]
      | |- context [match ?x with Plain _ => _ | _ => _ end] => destruct x
      | |- context [match ?x with PStr _ => _ | _ => _ end] => destruct x
      end;
    intros H; inversion H; subst;
    first [left; split; reflexivity | right; repeat split].
Qed.

Lemma body_goes_with_post_witness :
  ("POST" = "GET" /\ has_body (mkKwargs None None (Some [x00])
                                 (Some [("Content-Type", PStr "application/octet-stream")]))
                    = false) \/
  ("POST" = "POST" /\
   has_body (mkKwargs None None (Some [x00])
               (Some [("Content-Type", PStr "application/octet-stream")])) = true /\
   kw_params (mkKwargs None None (Some [x00])
                (Some [("Content-Type", PStr "application/octet-stream")])) = None).
Proof.
  apply (body_goes_with_post (Op_add_file (BytesIO [x00] 0 false))
           "POST" Client._ADD_FILE_ENDPOINT).
  reflexivity.
Defined.

(** X9: an argument that [json.dumps] cannot encode makes
    [request_new_permissions], [clean_tags] and [search_files] raise
    [TypeError] before anything is sent. *)
Theorem unencodable_argument_sends_nothing (v name inbox archive : pyval) (st : State) :
  json_serializable v = false ->
  Client.request_new_permissions name v st = (Raise (TypeError "not JSON serializable"), st) /\
  Client.clean_tags v st = (Raise (TypeError "not JSON serializable"), st) /\
  Client.search_files v inbox archive st = (Raise (TypeError "not JSON serializable"), st).
Proof.
  intros Hv.
  unfold Client.request_new_permissions, Client.clean_tags, Client.search_files,
    bind, lift, json_dumps.
  rewrite Hv. repeat split.
Qed.

Lemma unencodable_argument_sends_nothing_witness :
  Client.clean_tags (PList [PBytes [x00]]) (keyed PNone unreachable)
  = (Raise (TypeError "not JSON serializable"), keyed PNone unreachable).
Proof.
  apply (unencodable_argument_sends_nothing (PList [PBytes [x00]]) PNone PNone PNone
           (keyed PNone unreachable)).
  reflexivity.
Defined.

(** ** The vocabulary and the base URL *)

(** X10: in each enum class the values of the members are distinct and
    calling the class on an integer gives a member exactly when it is that
    member's value: the lookup by value and [value] are inverse. *)
Theorem enum_lookup_is_inverse_of_value (cls : enum_class) (z : Z) (e : enum_member) :
  enum_lookup cls z = Some e <-> (member_class e = Some cls /\ enum_value e = z).
Proof.
  split.
  - intros H. destruct (enum_lookup_sound cls z e H). split; assumption.
  - intros [Hc <-]. destruct e as [m|m|m|m|m]; inversion Hc; destruct m; reflexivity.
Qed.

(** X11: [rstrip_slash] removes a run of slashes from the end and nothing
    else: the argument is the result followed by slashes only, and the
    result does not end with a slash. *)
Theorem rstrip_slash_removes_exactly_the_trailing_slashes (u : string) :
  ends_with_slash (rstrip_slash u) = false /\
  exists n, u = rstrip_slash u ++ slashes n.
Proof.
  induction u as [|c u [IHe [n IHn]]].
  - split; [reflexivity|]. exists 0%nat. reflexivity.
  - cbn [rstrip_slash]. destruct (rstrip_slash u) as [|c' r] eqn:E.
    + destruct (Ascii.eqb c "/") eqn:Hc.
      * split; [reflexivity|]. exists (S n). apply Ascii.eqb_eq in Hc. subst c.
        cbn [append slashes]. rewrite IHn at 1. reflexivity.
      * split; [cbn [ends_with_slash]; exact Hc|]. exists n.
        cbn [append]. rewrite IHn at 1. reflexivity.
    + split; [exact IHe|]. exists n. cbn [append]. rewrite IHn at 1. reflexivity.
Qed.

(** ** Construction when the version check fails *)

(** X12: when the version request is answered with a status from 400 to 599,
    construction raises the [APIError] for that reply, after that single
    request and without a warning; when the reply passes but its JSON body
    is an object without [version], construction raises [KeyError]. *)
Theorem construction_fails_with_the_version_check
    (access_key : pyval) (url : string) (st : State) (response : Response) :
  network st (sent st) (version_request access_key url) = Responded response ->
  issued (Client.__init__ access_key url) st = [version_request access_key url] /\
  (400 <= status_code response < 600 ->
   exists e, fst (Client.__init__ access_key url st) = Raise e /\
             is_APIError e = true /\ exn_response e = Some response /\
             warned (snd (Client.__init__ access_key url st)) = warned st) /\
  (passes response ->
   forall body, json_body response = Some (PDict body) ->
                dict_get (KStr "version") body = None ->
                fst (Client.__init__ access_key url st) = Raise (KeyError (KStr "version"))).
Proof.
  intros Hnet. unfold issued. rewrite init_run. cbv zeta. rewrite Hnet.
  repeat split.
  - destruct (rbind _ _) as [version|e]; cbn [snd];
      [destruct (int_ne Client.VERSION version)|]; cbn [sent];
      rewrite skipn_app, skipn_all, Nat.sub_diag; reflexivity.
  - intros Hstatus. destruct (dispatch_error response Hstatus) as (e & He & Hapi & Hresp).
    exists e. rewrite He. repeat split; assumption.
  - intros Hpass body Hbody Hversion. rewrite (dispatch_passes response Hpass).
    cbn [rbind translate]. unfold response_json. rewrite Hbody. cbn [rbind getitem].
    rewrite Hversion. reflexivity.
Qed.

Lemma construction_fails_with_the_version_check_witness :
  exists e,
    fst (Client.__init__ PNone _DEFAULT_API_URL (fresh (stub forbidden))) = Raise e /\
    is_APIError e = true.
Proof.
  destruct (construction_fails_with_the_version_check PNone _DEFAULT_API_URL
              (fresh (stub forbidden)) forbidden eq_refl) as (_ & Herr & _).
  destruct Herr as (e & He & Hapi & _); [simpl; lia|].
  exists e. split; assumption.
Defined.

(** ** The command line entry point *)

(** X13: [main] constructs a client with the defaults and then reads
    [api_version] again: when both requests are answered with 2xx replies
    that report versions, it has made the same unauthenticated request to
    the default URL twice, and prints the version of the second reply for
    the argument [api_ver] and [no] for any other argument. *)
Theorem main_asks_for_the_version_twice
    (apiCall : string) (st : State) (first second : Response)
    (body1 body2 : dict) (version1 version2 : pyval) :
  network st (sent st) default_version_request = Responded first ->
  network st (sent st ++ [default_version_request])%list default_version_request
  = Responded second ->
  200 <= status_code first < 300 ->
  200 <= status_code second < 300 ->
  json_body first = Some (PDict body1) ->
  json_body second = Some (PDict body2) ->
  dict_get (KStr "version") body1 = Some version1 ->
  dict_get (KStr "version") body2 = Some version2 ->
  issued (main apiCall) st = [default_version_request; default_version_request] /\
  fst (main apiCall st)
  = Ok (if String.eqb apiCall "api_ver" then [PStr "api version:"; version2]
        else [PStr "no"]).
Proof.
  intros Hn1 Hn2 Hs1 Hs2 Hb1 Hb2 Hv1 Hv2.
  assert (Hp1 : passes first) by (left; lia).
  assert (Hp2 : passes second) by (left; lia).
  unfold issued, main, bind. rewrite init_run. cbv zeta.
  change (version_request PNone _DEFAULT_API_URL) with default_version_request.
  rewrite Hn1, (dispatch_passes first Hp1). cbn [rbind translate].
  unfold response_json. rewrite Hb1. cbn [rbind getitem]. rewrite Hv1.
  change Client.api_version with (invoke Op_api_version).
  rewrite invoke_run. cbn [prepare].
  assert (Hself : forall (b : bool) w,
            (if b
             then mkState (mkClient PNone (rstrip_slash _DEFAULT_API_URL)) (network st)
                    (sent st ++ [default_version_request]) (warned st ++ [w])
             else mkState (mkClient PNone (rstrip_slash _DEFAULT_API_URL)) (network st)
                    (sent st ++ [default_version_request]) (warned st))
            = mkState (mkClient PNone (rstrip_slash _DEFAULT_API_URL)) (network st)
                (sent st ++ [default_version_request])
                (if b then (warned st ++ [w])%list else warned st))
    by (intros [] w; reflexivity).
  rewrite Hself. cbv zeta. cbn [self network sent].
  change (outbound (mkClient PNone (rstrip_slash _DEFAULT_API_URL)) "GET"
            Client._API_VERSION_ENDPOINT no_kwargs) with default_version_request.
  rewrite Hn2, (dispatch_passes second Hp2). cbn [rbind translate].
  unfold response_json. rewrite Hb2. cbn [rbind getitem]. rewrite Hv2.
  unfold after_request. cbn [sent].
  destruct (String.eqb apiCall "api_ver"); cbn [fst snd sent ret];
    rewrite <- app_assoc, skipn_app, skipn_all, Nat.sub_diag; split; reflexivity.
Qed.

Lemma main_asks_for_the_version_twice_witness :
  fst (main "api_ver" (fresh (stub (reports 4)))) = Ok [PStr "api version:"; PInt 4] /\
  fst (main "help" (fresh (stub (reports 4)))) = Ok [PStr "no"].
Proof.
  split.
  - apply (main_asks_for_the_version_twice "api_ver" (fresh (stub (reports 4)))
             (reports 4) (reports 4) [(KStr "version", PInt 4)] [(KStr "version", PInt 4)]
             (PInt 4) (PInt 4)); try reflexivity; simpl; lia.
  - apply (main_asks_for_the_version_twice "help" (fresh (stub (reports 4)))
             (reports 4) (reports 4) [(KStr "version", PInt 4)] [(KStr "version", PInt 4)]
             (PInt 4) (PInt 4)); try reflexivity; simpl; lia.
Defined.

(** ** What translation keeps *)

Lemma rmap_Ok_inv {A B} (f : A -> Result B) (l : list A) (l' : list B) :
  rmap f l = Ok l' -> Forall2 (fun a b => f a = Ok b) l l'.
Proof.
  revert l'. induction l as [|a l IH]; intros l' H; cbn [rmap] in H.
  - inversion H. constructor.
  - destruct (f a) as [b|] eqn:Hb; [|discriminate]. cbn [rbind] in H.
    destruct (rmap f l) as [bs|]; [|discriminate]. inversion H.
    constructor; [exact Hb|apply IH; reflexivity].
Qed.

Lemma rfold_Ok_inv {A B} (f : B -> A -> Result B) (l : list A) (b b' : B) :
  rfold f l b = Ok b' -> Forall (fun a => exists b0 b1, f b0 a = Ok b1) l.
Proof.
  revert b. induction l as [|a l IH]; intros b H; [constructor|].
  cbn [rfold] in H. destruct (f b a) as [b1|] eqn:Hb; [|discriminate].
  constructor; [exists b, b1; exact Hb|eapply IH; exact H].
Qed.


Lemma dict_keys_set_present (k : key) (v x : pyval) (d : dict) :
  dict_get k d = Some x -> dict_keys (dict_set k v d) = dict_keys d.
Proof.
  unfold dict_keys. induction d as [|[k' v'] d IH]; [discriminate|].
  cbn [dict_get dict_set]. destruct (key_eqb k k'); [reflexivity|].
  intros H. cbn [map fst]. rewrite (IH H). reflexivity.
Qed.

Lemma dict_get_set_other (k k' : key) (v : pyval) (d : dict) :
  key_eqb k' k = false -> dict_get k' (dict_set k v d) = dict_get k' d.
Proof.
  intros Hne. induction d as [|[k0 v0] d IH]; cbn [dict_set dict_get].
  - rewrite Hne. reflexivity.
  - destruct (key_eqb k k0) eqn:E; cbn [dict_get].
    + destruct (key_eqb k' k0) eqn:E'; [|reflexivity].
      exfalso. destruct k, k0, k'; cbn [key_eqb] in *; try discriminate;
        repeat match goal with
          | H : String.eqb _ _ = true |- _ => apply String.eqb_eq in H
          | H : Z.eqb _ _ = true |- _ => apply Z.eqb_eq in H
          | H : String.eqb _ _ = false |- _ => apply String.eqb_neq in H
          | H : Z.eqb _ _ = false |- _ => apply Z.eqb_neq in H
          end; congruence.
    + rewrite IH. reflexivity.
Qed.

(** A record that [rekey_datum] accepts. *)
Lemma rekey_datum_Ok (datum datum' : pyval) :
  Client.rekey_datum datum = Ok datum' ->
  record_known datum /\
  field_names datum' = field_names datum /\
  service_names datum' = service_names datum.
Proof.
  unfold Client.rekey_datum, Client.updated. fold STATUSES_FIELD.
  destruct datum as [| | | | | | |fields]; try discriminate. cbn [getitem].
  destruct (dict_get (KStr STATUSES_FIELD) fields) as [sts|] eqn:Hf; [|discriminate].
  cbn [rbind]. destruct sts as [| | | | | | |services]; try discriminate.
  cbn [items rbind].
  destruct (rmap Client.rekey_service services) as [services'|] eqn:Hs; [|discriminate].
  cbn [rbind setitem]. intros H. inversion H; subst datum'. clear H.
  apply rmap_Ok_inv in Hs. repeat split.
  - exists fields, services. repeat split; [exact Hf|].
    clear Hf. induction Hs as [|[service inner] [service' inner'] ? ? Hentry _ IH];
      constructor; [|exact IH].
    unfold Client.rekey_service in Hentry.
    destruct inner as [| | | | | | |status_to_tags]; try discriminate.
    cbn [items rbind] in Hentry. exists status_to_tags. split; [reflexivity|].
    destruct (rfold Client.rekey_status status_to_tags status_to_tags) as [d|] eqn:Hd;
      [|discriminate].
    apply rfold_Ok_inv in Hd. clear Hentry.
    induction Hd as [|[status tags] ? (b0 & b1 & Hstep) _ IHd]; constructor; [|exact IHd].
    unfold Client.rekey_status in Hstep. cbn [fst].
    destruct (int_of_key status) as [n|] eqn:Hn; [|discriminate]. cbn [rbind] in Hstep.
    unfold enum_call in Hstep. cbn [int_value enum_lookup] in Hstep.
    destruct (TagStatus.of_Z n) as [t|] eqn:Ht; [|discriminate].
    exists n, t. split; [exact Hn|exact Ht].
  - cbn [field_names]. apply f_equal. eapply dict_keys_set_present. exact Hf.
  - unfold service_names. cbn [getitem]. rewrite dict_get_set_same, Hf.
    apply f_equal. unfold dict_keys. clear Hf.
    induction Hs as [|[service inner] [service' inner'] ? ? Hentry _ IH]; [reflexivity|].
    cbn [map fst]. rewrite IH. apply f_equal2; [|reflexivity].
    unfold Client.rekey_service in Hentry.
    destruct (items inner); [|discriminate]. cbn [rbind] in Hentry.
    destruct (rfold _ _ _); [|discriminate]. inversion Hentry. reflexivity.
Qed.

(** X14: whenever [file_metadata], outside identifier-only mode, returns for
    a reply whose [metadata] is a list of records, every status key of every
    tag service of every record was one that [TagStatus(int(key))] accepts,
    and the result has as many records, each with the same fields in the
    same order and the same tag services in the same order: no record, field
    or service is dropped, added or reordered, and no unknown status
    passes. *)
Theorem file_metadata_returns_only_known_statuses
    (hashes file_ids only_identifiers : pyval) (st : State) (req : Request)
    (response : Response) (body : pyval) (records : list pyval) (result : pyval) :
  truthy only_identifiers = false ->
  issued (Client.file_metadata hashes file_ids only_identifiers) st = [req] ->
  network st (sent st) req = Responded response ->
  passes response ->
  json_body response = Some body ->
  getitem body "metadata" = Ok (PList records) ->
  fst (Client.file_metadata hashes file_ids only_identifiers st) = Ok result ->
  Forall record_known records /\
  exists records',
    result = PList records' /\
    Forall2 (fun datum datum' =>
               field_names datum' = field_names datum /\
               service_names datum' = service_names datum)
            records records'.
Proof.
  intros Hmode Hreq Hnet Hpass Hbody Hmeta Hres.
  change (Client.file_metadata hashes file_ids only_identifiers)
    with (invoke (Op_file_metadata hashes file_ids only_identifiers)) in *.
  destruct (invoke_request _ st req Hreq) as (m & ep & kw & _ & _ & E).
  rewrite E, Hnet, (dispatch_passes response Hpass) in Hres.
  cbn [rbind fst translate] in Hres. unfold response_json in Hres.
  rewrite Hbody in Hres. cbn [rbind] in Hres. rewrite Hmeta, Hmode in Hres.
  cbn [rbind] in Hres. unfold Client.for_each_in_place in Hres.
  cbn [iter py_iter rbind] in Hres.
  destruct (rmap Client.rekey_datum records) as [records'|] eqn:Hr; [|discriminate].
  inversion Hres; subst result. apply rmap_Ok_inv in Hr.
  clear Hres Hmeta E. split.
  - induction Hr as [|datum datum' ? ? Hd _ IH]; [constructor|].
    constructor; [|exact IH]. apply (rekey_datum_Ok datum datum' Hd).
  - exists records'. split; [reflexivity|].
    induction Hr as [|datum datum' ? ? Hd _ IH]; [constructor|].
    constructor; [|exact IH].
    destruct (rekey_datum_Ok datum datum' Hd) as (_ & Hf & Hs). split; assumption.
Qed.

Lemma file_metadata_returns_only_known_statuses_witness :
  Forall record_known [raw_record].
Proof.
  eapply (file_metadata_returns_only_known_statuses (PList [some_hash]) PNone (PBool false)
           (fresh (stub metadata_reply)) _ metadata_reply
           (PDict [(KStr "metadata", PList [raw_record])]) [raw_record]
           (PList [typed_raw_record]));
    try reflexivity.
  left; simpl; lia.
Defined.



(** X16: in identifier-only mode [file_metadata] asks the service for
    identifiers only and returns the [metadata] of the reply as it is,
    whatever it holds. *)
Theorem identifier_only_mode_returns_metadata_as_received
    (hashes file_ids only_identifiers : pyval) (st : State) (req : Request)
    (response : Response) (body data : pyval) :
  truthy only_identifiers = true ->
  issued (Client.file_metadata hashes file_ids only_identifiers) st = [req] ->
  network st (sent st) req = Responded response ->
  passes response ->
  json_body response = Some body ->
  getitem body "metadata" = Ok data ->
  fst (Client.file_metadata hashes file_ids only_identifiers st) = Ok data /\
  exists params,
    kw_params (req_kwargs req) = Some params /\
    In ("only_return_identifiers", JsonText only_identifiers) params.
Proof.
  intros Hmode Hreq Hnet Hpass Hbody Hmeta.
  change (Client.file_metadata hashes file_ids only_identifiers)
    with (invoke (Op_file_metadata hashes file_ids only_identifiers)) in *.
  destruct (invoke_request _ st req Hreq) as (m & ep & kw & Hp & -> & E).
  split.
  - rewrite E, Hnet, (dispatch_passes response Hpass).
    cbn [rbind fst translate]. unfold response_json. rewrite Hbody. cbn [rbind].
    rewrite Hmeta, Hmode. reflexivity.
  - assert (Hkw : kw_params (req_kwargs (outbound (self st) m ep kw)) = kw_params kw).
    { unfold outbound. cbn [req_kwargs].
      destruct (truthy (_access_key (self st))); reflexivity. }
    rewrite Hkw. clear E Hnet Hreq Hkw.
    cbn [prepare] in Hp. unfold identity_check, opt_param, json_dumps in Hp.
    rewrite Hmode in Hp.
    destruct (truthy hashes), (truthy file_ids); cbn [xorb negb rbind] in Hp;
      try discriminate;
      repeat match type of Hp with
        | context [if ?b then _ else _] => destruct b; cbn [rbind] in Hp; try discriminate
        end;
      inversion Hp; eexists; (split; [reflexivity|]);
      unfold Client.add_param; apply in_or_app; right; left; reflexivity.
Qed.

Lemma identifier_only_mode_returns_metadata_as_received_witness :
  fst (Client.file_metadata PNone (PList [PInt 7]) (PBool true)
         (fresh (stub identifiers_reply)))
  = Ok (PList [PDict [(KStr "file_id", PInt 7); (KStr "hash", some_hash)]]).
Proof.
  eapply (identifier_only_mode_returns_metadata_as_received
            PNone (PList [PInt 7]) (PBool true) (fresh (stub identifiers_reply))
            _ identifiers_reply);
    try reflexivity.
  left; simpl; lia.
Defined.

(** X17: [add_file], [get_url_info], [verify_access_key] and [get_url_files]
    return the JSON object of the reply with one field rewritten: the result
    has the same fields in the same order, and every other field has the
    value it had. *)
Theorem translation_rewrites_one_field
    (op : operation) (field : string) (st : State) (req : Request)
    (response : Response) (d : dict) (result : pyval) :
  rewritten_field op = Some field ->
  issued (invoke op) st = [req] ->
  network st (sent st) req = Responded response ->
  passes response ->
  json_body response = Some (PDict d) ->
  fst (invoke op st) = Ok result ->
  exists d',
    result = PDict d' /\
    dict_keys d' = dict_keys d /\
    forall k, key_eqb k (KStr field) = false -> dict_get k d' = dict_get k d.
Proof.
  intros Hfield Hreq Hnet Hpass Hbody Hres.
  destruct (invoke_request op st req Hreq) as (m & ep & kw & _ & _ & E).
  rewrite E, Hnet, (dispatch_passes response Hpass) in Hres. cbn [rbind fst] in Hres.
  assert (Hset : forall x v r, dict_get (KStr field) d = Some v ->
                 r = PDict (dict_set (KStr field) x d) ->
                 exists d', r = PDict d' /\ dict_keys d' = dict_keys d /\
                   forall k, key_eqb k (KStr field) = false -> dict_get k d' = dict_get k d).
  { intros x v r Hv ->. eexists. split; [reflexivity|]. split.
    - eapply dict_keys_set_present. exact Hv.
    - intros k Hk. apply dict_get_set_other. exact Hk. }
  destruct op; try discriminate; inversion Hfield; subst field;
    cbn [translate] in Hres; unfold response_json, translate_enum_field, Client.updated in Hres;
    rewrite Hbody in Hres; cbn [rbind getitem] in Hres;
    match type of Hres with
    | context [dict_get ?k d] => destruct (dict_get k d) as [v|] eqn:Hv; [|discriminate]
    end;
    cbn [rbind] in Hres;
    repeat match type of Hres with
      | rbind ?r _ = _ => destruct r; [|discriminate]; cbn [rbind] in Hres
      end;
    cbn [setitem] in Hres; inversion Hres; eapply Hset; eauto.
Qed.

Lemma translation_rewrites_one_field_witness :
  exists d',
    PDict [(KStr "status", PEnum (EImportStatus ImportStatus.Vetoed)); (KStr "hash", some_hash)]
    = PDict d' /\
    dict_keys d' = [KStr "status"; KStr "hash"].
Proof.
  destruct (translation_rewrites_one_field (Op_add_file (Plain (PStr "/tmp/a.png")))
              "status" (fresh (stub (import_reply 7)))
              (add_file_path_request (self (fresh (stub (import_reply 7)))) "/tmp/a.png")
              (import_reply 7) [(KStr "status", PInt 7); (KStr "hash", some_hash)]
              (PDict [(KStr "status", PEnum (EImportStatus ImportStatus.Vetoed));
                      (KStr "hash", some_hash)]))
    as (d' & Hd & Hk & _);
    [reflexivity | reflexivity | reflexivity | left; simpl; lia | reflexivity | reflexivity |].
  exists d'. split; assumption.
Defined.

(** What [import_status_of] does to an element it accepts. *)
Lemma import_status_of_Ok (file_status file_status' : pyval) :
  Client.import_status_of file_status = Ok file_status' ->
  exists e e',
    file_status = PDict e /\ file_status' = PDict e' /\
    dict_keys e' = dict_keys e /\
    forall k, key_eqb k (KStr "status") = false -> dict_get k e' = dict_get k e.
Proof.
  unfold Client.import_status_of.
  destruct file_status as [| | | | | | |e]; try discriminate. cbn [getitem].
  destruct (dict_get (KStr "status") e) as [v|] eqn:Hv; [|discriminate]. cbn [rbind].
  destruct (enum_call ClsImportStatus v); [|discriminate]. cbn [rbind setitem].
  intros H. inversion H. eexists. eexists. repeat split.
  - eapply dict_keys_set_present. exact Hv.
  - intros k Hk. apply dict_get_set_other. exact Hk.
Qed.

(** X18: whenever [get_url_files] returns for a reply whose
    [url_file_statuses] is a list, the result lists as many file statuses in
    the same order, each an object with the same fields in the same order
    and every field but [status] unchanged. *)
Theorem get_url_files_keeps_the_other_fields
    (url : pyval) (st : State) (req : Request) (response : Response)
    (d : dict) (l : list pyval) (result : pyval) :
  issued (Client.get_url_files url) st = [req] ->
  network st (sent st) req = Responded response ->
  passes response ->
  json_body response = Some (PDict d) ->
  dict_get (KStr "url_file_statuses") d = Some (PList l) ->
  fst (Client.get_url_files url st) = Ok result ->
  exists l',
    getitem result "url_file_statuses" = Ok (PList l') /\
    Forall2 (fun file_status file_status' =>
               exists e e',
                 file_status = PDict e /\ file_status' = PDict e' /\
                 dict_keys e' = dict_keys e /\
                 forall k, key_eqb k (KStr "status") = false ->
                           dict_get k e' = dict_get k e)
            l l'.
Proof.
  intros Hreq Hnet Hpass Hbody Hl Hres.
  change (Client.get_url_files url) with (invoke (Op_get_url_files url)) in *.
  destruct (invoke_request _ st req Hreq) as (m & ep & kw & _ & _ & E).
  rewrite E, Hnet, (dispatch_passes response Hpass) in Hres.
  cbn [rbind fst translate] in Hres. unfold response_json, Client.updated in Hres.
  rewrite Hbody in Hres. cbn [rbind getitem] in Hres. rewrite Hl in Hres.
  cbn [rbind] in Hres. unfold Client.for_each_in_place in Hres.
  cbn [iter py_iter rbind] in Hres.
  destruct (rmap Client.import_status_of l) as [l'|] eqn:Hmap; [|discriminate].
  cbn [rbind setitem] in Hres. inversion Hres. exists l'. split.
  - cbn [getitem]. rewrite dict_get_set_same. reflexivity.
  - apply rmap_Ok_inv in Hmap. clear - Hmap.
    induction Hmap as [|fs fs' ? ? Hfs _ IH]; [constructor|].
    constructor; [|exact IH]. apply import_status_of_Ok. exact Hfs.
Qed.

Lemma get_url_files_keeps_the_other_fields_witness :
  exists l',
    getitem
      (PDict [(KStr "normalised_url", PStr "https://example.org/1");
              (KStr "url_file_statuses",
               PList [PDict [(KStr "status", PEnum (EImportStatus ImportStatus.Exists));
                             (KStr "hash", some_hash); (KStr "note", PStr "")]])])
      "url_file_statuses" = Ok (PList l') /\
    List.length l' = 1%nat.
Proof.
  edestruct get_url_files_keeps_the_other_fields
    with (url := PStr "https://example.org/1") (st := fresh (stub url_files_reply))
         (response := url_files_reply)
    as (l' & Hl' & Hall);
    [reflexivity | reflexivity | left; simpl; lia | reflexivity | reflexivity
    | reflexivity |].
  exists l'. split; [exact Hl'|].
  apply Forall2_length in Hall. symmetry. exact Hall.
Defined.

(** ** Operations that return a field or the whole body *)

(** X19: [api_version], [request_new_permissions], [clean_tags] and
    [search_files] return one field of the JSON body as it is; they raise
    [KeyError] when the body is an object without that field and [TypeError]
    when the body is not an object.  [get_tag_services] and [add_url] return
    the whole body as it is. *)
Theorem field_or_body_is_returned_as_received
    (op : operation) (st : State) (req : Request) (response : Response) (data : pyval) :
  issued (invoke op) st = [req] ->
  network st (sent st) req = Responded response ->
  passes response ->
  json_body response = Some data ->
  (forall field, extracted_field op = Some field ->
     match data with
     | PDict d =>
         match dict_get (KStr field) d with
         | Some v => fst (invoke op st) = Ok v
         | None => fst (invoke op st) = Raise (KeyError (KStr field))
         end
     | _ => fst (invoke op st) = Raise (TypeError "subscript")
     end) /\
  match op with
  | Op_get_tag_services | Op_add_url _ _ _ => fst (invoke op st) = Ok data
  | _ => True
  end.
Proof.
  intros Hreq Hnet Hpass Hbody.
  destruct (invoke_request op st req Hreq) as (m & ep & kw & _ & _ & E).
  rewrite E, Hnet, (dispatch_passes response Hpass). cbn [rbind fst].
  split.
  - intros field Hfield.
    destruct op; try discriminate; inversion Hfield; subst field;
      cbn [translate]; unfold response_json; rewrite Hbody; cbn [rbind];
      destruct data as [| | | | | | |d]; try reflexivity;
      cbn [getitem]; destruct (dict_get _ d); reflexivity.
  - destruct op; try exact I; cbn [translate]; unfold response_json; rewrite Hbody;
      reflexivity.
Qed.

Lemma field_or_body_is_returned_as_received_witness :
  fst (invoke (Op_clean_tags (PList [PStr " A"; PStr "b "])) (keyed PNone (stub list_reply)))
  = Raise (TypeError "subscript") /\
  fst (invoke Op_get_tag_services (keyed PNone (stub list_reply)))
  = Ok (PList [PStr "a"; PStr "b"]).
Proof.
  split.
  - edestruct field_or_body_is_returned_as_received
      with (op := Op_clean_tags (PList [PStr " A"; PStr "b "]))
           (st := keyed PNone (stub list_reply)) (response := list_reply)
      as [Hfield _];
      [reflexivity | reflexivity | left; simpl; lia | reflexivity |].
    exact (Hfield "tags" eq_refl).
  - edestruct field_or_body_is_returned_as_received
      with (op := Op_get_tag_services)
           (st := keyed PNone (stub list_reply)) (response := list_reply)
      as [_ Hbody];
      [reflexivity | reflexivity | left; simpl; lia | reflexivity |].
    exact Hbody.
Defined.

(** ** Instances of the statements above *)

Lemma call_endpoint_forwards_arguments_witness :
  exists req,
    issued (Client._call_endpoint "POST" Client._ADD_FILE_ENDPOINT
              (mkKwargs None None (Some [x00])
                        (Some [("Content-Type", PStr "application/octet-stream")])))
           (keyed (PStr "secret") unreachable) = [req] /\
    match kw_headers (req_kwargs req) with
    | Some h => headers_get "Content-Type" h
    | None => None
    end = Some (PStr "application/octet-stream").
Proof.
  destruct (call_endpoint_forwards_arguments "POST" Client._ADD_FILE_ENDPOINT
              (mkKwargs None None (Some [x00])
                        (Some [("Content-Type", PStr "application/octet-stream")]))
              (keyed (PStr "secret") unreachable))
    as (req & Hreq & _ & _ & _ & _ & _ & Hheaders).
  exists req. split; [exact Hreq|].
  rewrite (Hheaders "Content-Type" eq_refl). reflexivity.
Defined.

Lemma enum_lookup_is_inverse_of_value_witness :
  enum_lookup ClsImportStatus 7 = Some (EImportStatus ImportStatus.Vetoed) /\
  enum_value (EURLType URLType.UnknownURL) = 5.
Proof.
  split.
  - apply (enum_lookup_is_inverse_of_value ClsImportStatus 7
             (EImportStatus ImportStatus.Vetoed)).
    split; reflexivity.
  - apply (enum_lookup_is_inverse_of_value ClsURLType 5 (EURLType URLType.UnknownURL)).
    reflexivity.
Defined.
